(** * Booking request lifecycle and pricing of the Rejuvenator platform

    A shallow embedding of the parts of [src/script.js] (with the column
    types and constraints of [src/supabase-schema.sql]) that carry the
    booking-request lifecycle:

    - [calculatePrice] of [ServiceStep];
    - the [PaymentForm] component: its state, the countdown effect,
      [createBookingRequest] and [handlePayment];
    - [handleBookingResponse] of [TherapistDashboard];
    - the [bookings] and [payments] tables these functions write.

    The statements proved at the end compare this code with the
    specification of the lifecycle.

    Left out of the model: the reset of the booking data after a
    completed booking ([setBookingData({})]), the order of the rows the
    dashboard lists, the rounding of the coordinates by their columns,
    and what can happen between the awaits of [handlePayment], which is
    run as one step. *)

From Stdlib Require Import ZArith QArith Qround Lia String Ascii List Sorted.
From stdpp Require Import base option gmap pretty sorting.
Import ListNotations.

Local Open Scope Z_scope.

(** ** JavaScript numbers

    A JavaScript number is an IEEE-754 double.  The finite values are
    modelled by exact rationals (rounding of the binary representation
    is not modelled: on the integer-valued catalogue of [SERVICES] every
    intermediate value of [calculatePrice] is an integer or a dyadic
    fraction and exact); the three special values a division can
    produce are kept apart, so that a division by zero is what
    JavaScript makes of it and not what [Qdiv] does.  The sign of zero
    is not modelled. *)

Module JS.

Inductive number : Type :=
| Fin (q : Q)
| PosInf
| NegInf
| NaN.

Definition of_Z (z : Z) : number := Fin (inject_Z z).

(** Numeric equality of two values of the model ([NaN] is compared as
    a value of the model here, not with the [===] of JavaScript). *)
Definition eq (a b : number) : Prop :=
  match a, b with
  | Fin p, Fin q => (p == q)%Q
  | PosInf, PosInf | NegInf, NegInf | NaN, NaN => True
  | _, _ => False
  end.

Definition neg (a : number) : number :=
  match a with
  | Fin q => Fin (- q)%Q
  | PosInf => NegInf
  | NegInf => PosInf
  | NaN => NaN
  end.

Definition add (a b : number) : number :=
  match a, b with
  | NaN, _ | _, NaN => NaN
  | Fin p, Fin q => Fin (p + q)%Q
  | PosInf, NegInf | NegInf, PosInf => NaN
  | PosInf, _ | _, PosInf => PosInf
  | NegInf, _ | _, NegInf => NegInf
  end.

Definition sub (a b : number) : number := add a (neg b).

(** The infinity of the sign of [q], [NaN] for zero. *)
Definition signed_inf (q : Q) : number :=
  match (q ?= 0)%Q with
  | Gt => PosInf
  | Lt => NegInf
  | Eq => NaN
  end.

Definition mul (a b : number) : number :=
  match a, b with
  | NaN, _ | _, NaN => NaN
  | Fin p, Fin q => Fin (p * q)%Q
  | PosInf, Fin q | Fin q, PosInf => signed_inf q
  | NegInf, Fin q | Fin q, NegInf => signed_inf (- q)%Q
  | PosInf, PosInf | NegInf, NegInf => PosInf
  | PosInf, NegInf | NegInf, PosInf => NegInf
  end.

Definition div (a b : number) : number :=
  match a, b with
  | NaN, _ | _, NaN => NaN
  | Fin p, Fin q =>
      if Qeq_bool q 0 then signed_inf p else Fin (p / q)%Q
  | Fin _, (PosInf | NegInf) => Fin 0
  | PosInf, Fin q => if Qle_bool 0 q then PosInf else NegInf
  | NegInf, Fin q => if Qle_bool 0 q then NegInf else PosInf
  | (PosInf | NegInf), (PosInf | NegInf) => NaN
  end.

End JS.

Infix "=js" := JS.eq (at level 70, no associativity).

(** ** The service catalogue ([SERVICES], table [services]) *)

Module Service.
Record t : Type := mk {
  id : Z;
  name : string;
  baseDuration : Z;      (* base_duration INTEGER *)
  basePrice : Q;         (* base_price DECIMAL(10, 2) *)
  increment : Z;         (* increment INTEGER *)
  incrementPrice : Q     (* increment_price DECIMAL(10, 2) *)
}.
End Service.

Definition SERVICES : list Service.t := [
  Service.mk 1 "Stressbuster" 60 80 30 40;
  Service.mk 2 "Sports Massage" 60 90 30 45;
  Service.mk 3 "Deep Tissue" 60 100 30 50;
  Service.mk 4 "Swedish Relaxation" 60 85 30 42;
  Service.mk 5 "Prenatal" 60 95 30 47
].

(** The durations the [<select>] of [ServiceStep] offers. *)
Definition DURATION_OPTIONS : list Z := [60; 90; 120].

(** ** [calculatePrice]

    [service] is an object of [SERVICES] or [null]; [!service] is true
    exactly for [null]. *)
Definition calculatePrice (service : option Service.t) (duration : Z) : JS.number :=
  match service with
  | None => JS.of_Z 0
  | Some service =>
      let additionalTime :=
        JS.sub (JS.of_Z duration) (JS.of_Z (Service.baseDuration service)) in
      let additionalIncrements :=
        JS.div additionalTime (JS.of_Z (Service.increment service)) in
      JS.add (JS.Fin (Service.basePrice service))
             (JS.mul additionalIncrements (JS.Fin (Service.incrementPrice service)))
  end.

(** The increment rule of the specification, as a decidable predicate on
    a tier and a duration. *)
Definition increment_rule (tier : Service.t) (durationMinutes : Z) : bool :=
  (Service.baseDuration tier <=? durationMinutes) &&
  ((durationMinutes - Service.baseDuration tier) mod Service.increment tier =? 0).

(** ** The booking data of [BookingFlow]

    [bookingData] is the state the wizard threads through its steps;
    every step merges its own fields into it with [updateBookingData]. *)

Module Therapist.
Record t : Type := mk { id : positive; name : string }.
End Therapist.

Module BookingData.
Record t : Type := mk {
  address : string;
  lat : option Q;
  lon : option Q;
  service : option Service.t;
  duration : Z;
  date : string;
  time : string;
  therapist : option Therapist.t;
  parking : string;
  roomDetails : string;
  price : JS.number
}.

(** The initial value of [useState] in [BookingFlow]. *)
Definition initial : t :=
  mk "" None None None 60 "" "" None "" "" (JS.of_Z 0).
End BookingData.

(** The object each step passes to [updateData]. *)
Inductive StepData : Type :=
| AddressData (address : string) (lat lon : Q)
| ServiceData (service : option Service.t) (duration : Z) (price : JS.number)
| DateTimeData (date time : string)
| TherapistData (therapist : option Therapist.t)
| DetailsData (parking roomDetails : string).

(** [setBookingData(prev => ({ ...prev, ...data }))] *)
Definition updateBookingData (data : StepData) (prev : BookingData.t) : BookingData.t :=
  let '(BookingData.mk a la lo s d da ti th pa ro pr) := prev in
  match data with
  | AddressData a' la' lo' =>
      BookingData.mk a' (Some la') (Some lo') s d da ti th pa ro pr
  | ServiceData s' d' pr' =>
      BookingData.mk a la lo s' d' da ti th pa ro pr'
  | DateTimeData da' ti' =>
      BookingData.mk a la lo s d da' ti' th pa ro pr
  | TherapistData th' =>
      BookingData.mk a la lo s d da ti th' pa ro pr
  | DetailsData pa' ro' =>
      BookingData.mk a la lo s d da ti th pa' ro' pr
  end.

(** What the [handleSubmit] of each step hands to [updateData].  The one
    of [ServiceStep] is the only place where a price is computed. *)
Module ServiceStep.
Definition handleSubmit (service : option Service.t) (duration : Z) : StepData :=
  ServiceData service duration (calculatePrice service duration).
End ServiceStep.

(** A submission of one of the five steps before payment.

    [ServiceStep] keeps a service ([useState(data.service || null)]) and
    a duration ([useState(data.duration || 60)]) of its own; the radio
    buttons replace the first by an element of [SERVICES], the
    [<select>] replaces the second by one of its options, and the submit
    button is disabled while the service is [null]. *)
Inductive StepSubmit : Type :=
| SubmitAddress (address : string) (lat lon : Q)
| SubmitService (radio : option nat) (select : option nat)
| SubmitDateTime (date time : string)
| SubmitTherapist (therapist : Therapist.t)
| SubmitDetails (parking roomDetails : string).

Definition submit_data (prev : BookingData.t) (e : StepSubmit) : option StepData :=
  match e with
  | SubmitAddress a la lo => Some (AddressData a la lo)
  | SubmitService radio select =>
      let service :=
        match radio with
        | Some i => nth_error SERVICES i
        | None => BookingData.service prev
        end in
      let shown :=
        if BookingData.duration prev =? 0 then 60 else BookingData.duration prev in
      let duration :=
        match select with
        | Some j => nth j DURATION_OPTIONS shown
        | None => shown
        end in
      match service with
      | Some _ => Some (ServiceStep.handleSubmit service duration)
      | None => None
      end
  | SubmitDateTime da ti => Some (DateTimeData da ti)
  | SubmitTherapist th => Some (TherapistData (Some th))
  | SubmitDetails pa ro => Some (DetailsData pa ro)
  end.

Definition wizard_step (d : BookingData.t) (e : StepSubmit) : BookingData.t :=
  match submit_data d e with
  | Some data => updateBookingData data d
  | None => d
  end.

(** The booking data after a sequence of step submissions, as
    [PaymentStep] receives it. *)
Definition wizard (es : list StepSubmit) : BookingData.t :=
  fold_left wizard_step es BookingData.initial.

(** What holds of the booking data at every step of the wizard. *)
Definition wizard_inv (d : BookingData.t) : Prop :=
  BookingData.price d = calculatePrice (BookingData.service d) (BookingData.duration d)
  /\ In (BookingData.duration d) DURATION_OPTIONS
  /\ (forall tier, BookingData.service d = Some tier -> In tier SERVICES).

(** ** The store: tables [bookings], [payments] and [services]

    Identifiers are UUIDs; they are modelled by positive numbers. *)

Inductive BookingStatus : Type :=
| requested | confirmed | declined | completed | cancelled.

#[global] Instance BookingStatus_eq_dec : EqDecision BookingStatus.
Proof. solve_decision. Defined.

(** [CHECK (status IN ('requested', 'confirmed', 'declined', 'completed',
    'cancelled'))]: the values of the column, and the strings that
    denote them. *)
Definition status_of_string (s : string) : option BookingStatus :=
  if String.eqb s "requested" then Some requested
  else if String.eqb s "confirmed" then Some confirmed
  else if String.eqb s "declined" then Some declined
  else if String.eqb s "completed" then Some completed
  else if String.eqb s "cancelled" then Some cancelled
  else None.

Module Booking.
Record t : Type := mk {
  customer_id : positive;
  therapist_id : positive;
  service_id : Z;
  duration : Z;
  date : string;
  time : string;
  address : string;
  lat : option Q;
  lon : option Q;
  parking : string;
  room_details : string;
  price : Q;               (* DECIMAL(10, 2) NOT NULL *)
  status : BookingStatus
}.

(** [UPDATE bookings SET status = st] on one row. *)
Definition with_status (st : BookingStatus) (b : t) : t :=
  mk (customer_id b) (therapist_id b) (service_id b) (duration b) (date b)
     (time b) (address b) (lat b) (lon b) (parking b) (room_details b)
     (price b) st.
End Booking.

Module Payment.
Record t : Type := mk {
  booking_id : option positive;
  stripe_payment_id : string;
  amount : Q;
  status : string
}.
End Payment.

Module Store.
Record t : Type := mk {
  bookings : gmap positive Booking.t;
  payments : list Payment.t;
  services : list Service.t
}.
End Store.

(** A number sent to a [DECIMAL(10, 2) NOT NULL] column: [NaN] and the
    infinities are serialised as [null] and refused; a finite value is
    rounded to two decimal places, half away from zero, and refused when
    it needs more than eight digits before the point. *)
Definition round_half_away (q : Q) : Z :=
  if Qle_bool 0 q then Qfloor (q + (1 # 2)) else - Qfloor (- q + (1 # 2)).

Definition decimal_10_2 (x : JS.number) : option Q :=
  match x with
  | JS.Fin q =>
      let n := round_half_away (q * 100) in
      if Z.abs n <? 10 ^ 10 then Some (Qred (n # 100)) else None
  | _ => None
  end.

(** What the store answers to a request.  The answer is the
    environment's: the network, the constraints and the row-level
    policies of the schema are on the other side of the [supabase]
    client and are not modelled beyond these cases.  An update that
    matches no row the caller may write (the schema lets the therapist of
    a booking update it) is answered without an error and writes
    nothing. *)
Inductive InsertReply : Type :=
| Inserted (id : positive)         (* the row is stored under a new id *)
| InsertRefused (message : string).

Inductive UpdateReply : Type :=
| Written                          (* no error; the matching row is written *)
| Filtered                         (* no error, and no row is written *)
| UpdateRefused (message : string).

(** [supabase.from('bookings').update({ status }).eq('id', bookingId)];
    the result is the new table and the [error] of the answer.  A status
    outside the [CHECK] list is refused by the constraint. *)
Definition update_status (bookingId : option positive) (status : string)
    (reply : UpdateReply) (bookings : gmap positive Booking.t)
    : gmap positive Booking.t * option string :=
  match reply with
  | Written =>
      match status_of_string status with
      | Some st =>
          match bookingId with
          | Some i => (alter (Booking.with_status st) i bookings, None)
          | None => (bookings, None)
          end
      | None => (bookings, Some "violates check constraint"%string)
      end
  | Filtered => (bookings, None)
  | UpdateRefused message => (bookings, Some message)
  end.

(** ** The payment form ([PaymentForm])

    The record holds the props, the five [useState] cells, whether the
    component is still on the page, and the callbacks the component has
    pending: the answer of the insert, the timer of the simulated
    therapist response and the timer of the countdown effect (with the
    [timeRemaining] its closure captured). *)

Inductive RequestStatus : Type := pending | accepted | timeout.

#[global] Instance RequestStatus_eq_dec : EqDecision RequestStatus.
Proof. solve_decision. Defined.

Module PaymentForm.
Record t : Type := mk {
  data : BookingData.t;
  user : positive;
  processing : bool;
  error : string;
  bookingId : option positive;
  requestStatus : RequestStatus;
  timeRemaining : Z;
  mounted : bool;
  insertRequest : option (Z * InsertReply);
  responseTimer : option Z;
  countdownTimer : option (Z * Z)
}.

Definition with_processing (v : bool) (f : t) : t :=
  let '(mk d u _ e b r tr m ins resp cd) := f in
  mk d u v e b r tr m ins resp cd.
Definition with_error (v : string) (f : t) : t :=
  let '(mk d u p _ b r tr m ins resp cd) := f in
  mk d u p v b r tr m ins resp cd.
Definition with_bookingId (v : option positive) (f : t) : t :=
  let '(mk d u p e _ r tr m ins resp cd) := f in
  mk d u p e v r tr m ins resp cd.
Definition with_requestStatus (v : RequestStatus) (f : t) : t :=
  let '(mk d u p e b _ tr m ins resp cd) := f in
  mk d u p e b v tr m ins resp cd.
Definition with_timeRemaining (v : Z) (f : t) : t :=
  let '(mk d u p e b r _ m ins resp cd) := f in
  mk d u p e b r v m ins resp cd.
Definition with_mounted (v : bool) (f : t) : t :=
  let '(mk d u p e b r tr _ ins resp cd) := f in
  mk d u p e b r tr v ins resp cd.
Definition with_insertRequest (v : option (Z * InsertReply)) (f : t) : t :=
  let '(mk d u p e b r tr m _ resp cd) := f in
  mk d u p e b r tr m v resp cd.
Definition with_responseTimer (v : option Z) (f : t) : t :=
  let '(mk d u p e b r tr m ins _ cd) := f in
  mk d u p e b r tr m ins v cd.
Definition with_countdownTimer (v : option (Z * Z)) (f : t) : t :=
  let '(mk d u p e b r tr m ins resp _) := f in
  mk d u p e b r tr m ins resp v.

(** *** The countdown effect

    [useEffect(..., [timeRemaining, requestStatus])] runs after every
    render in which one of the two changed: first the cleanup of the
    previous run ([clearTimeout]), then the body.  When the body calls
    [setRequestStatus('timeout')] the effect runs once more, with a
    status for which neither branch is taken. *)
Definition countdownEffect (now : Z) (f : t) : t :=
  let f := with_countdownTimer None f in
  if bool_decide (requestStatus f = pending) && (0 <? timeRemaining f) then
    with_countdownTimer (Some (now + 1000, timeRemaining f)) f
  else if (timeRemaining f =? 0) && bool_decide (requestStatus f = pending) then
    with_requestStatus timeout f
  else f.

(** The setters of [useState].  On a component that has left the page
    they do nothing; with the value the cell already holds they cause
    no render, hence no effect. *)
Definition setProcessing (v : bool) (f : t) : t :=
  if mounted f then with_processing v f else f.
Definition setError (v : string) (f : t) : t :=
  if mounted f then with_error v f else f.
Definition setBookingId (v : positive) (f : t) : t :=
  if mounted f then with_bookingId (Some v) f else f.
Definition setRequestStatus (now : Z) (v : RequestStatus) (f : t) : t :=
  if mounted f then
    if bool_decide (requestStatus f = v) then f
    else countdownEffect now (with_requestStatus v f)
  else f.
Definition setTimeRemaining (now : Z) (v : Z) (f : t) : t :=
  if mounted f then
    if timeRemaining f =? v then f
    else countdownEffect now (with_timeRemaining v f)
  else f.

(** Leaving the page runs the cleanup of the countdown effect; the
    timer of the simulated response is not cleared by anything. *)
Definition unmount (f : t) : t :=
  if mounted f then with_mounted false (with_countdownTimer None f) else f.

(** The [disabled] attribute of the pay button. *)
Definition pay_disabled (stripe : bool) (f : t) : bool :=
  negb stripe || processing f || negb (bool_decide (requestStatus f = accepted)).
End PaymentForm.

(** The row [createBookingRequest] sends.  Reading [data.therapist.id] or
    [data.service.id] of a [null] throws inside the [try]. *)
Definition booking_row (user : positive) (data : BookingData.t) (price : Q)
    : option Booking.t :=
  match BookingData.therapist data, BookingData.service data with
  | Some therapist, Some service =>
      Some (Booking.mk user (Therapist.id therapist) (Service.id service)
              (BookingData.duration data) (BookingData.date data)
              (BookingData.time data) (BookingData.address data)
              (BookingData.lat data) (BookingData.lon data)
              (BookingData.parking data) (BookingData.roomDetails data)
              price requested)
  | _, _ => None
  end.

Module Store_ops.
Definition with_bookings (v : gmap positive Booking.t) (st : Store.t) : Store.t :=
  Store.mk v (Store.payments st) (Store.services st).
Definition with_payments (v : list Payment.t) (st : Store.t) : Store.t :=
  Store.mk (Store.bookings st) v (Store.services st).
Definition with_services (v : list Service.t) (st : Store.t) : Store.t :=
  Store.mk (Store.bookings st) (Store.payments st) v.
End Store_ops.

(** *** [createBookingRequest]

    The function runs up to its [await] when the form mounts, and
    resumes when the answer of the store arrives, [latency] milliseconds
    later. *)
Definition createBookingRequest (now latency : Z) (reply : InsertReply)
    (f : PaymentForm.t) : PaymentForm.t :=
  match booking_row (PaymentForm.user f) (PaymentForm.data f) 0 with
  | Some _ => PaymentForm.with_insertRequest (Some (now + latency, reply)) f
  | None => PaymentForm.setError "Failed to create booking request" f
  end.

Definition createBookingRequest_resumed (now : Z) (reply : InsertReply)
    (st : Store.t) (f : PaymentForm.t) : Store.t * PaymentForm.t :=
  let failed := (st, PaymentForm.setError "Failed to create booking request" f) in
  match reply with
  | Inserted id =>
      match decimal_10_2 (BookingData.price (PaymentForm.data f))
              ≫= booking_row (PaymentForm.user f) (PaymentForm.data f) with
      | Some row =>
          match Store.bookings st !! id with
          | None =>
              (Store_ops.with_bookings (<[id := row]> (Store.bookings st)) st,
               (* [setTimeout(() => setRequestStatus('accepted'), 5000)] *)
               PaymentForm.with_responseTimer (Some (now + 5000))
                 (PaymentForm.setBookingId id f))
          | Some _ => failed          (* duplicate key *)
          end
      | None => failed                (* the price is not a DECIMAL(10, 2) *)
      end
  | InsertRefused _ => failed
  end.

(** *** [handlePayment]

    [stripe] tells whether [stripe] and [elements] are loaded; [method]
    is the answer of [stripe.createPaymentMethod]: a [stripeError]
    message or the id of the payment method.  The three awaits are run
    in one go.  The result tells whether [onSuccess] was called. *)
Definition handlePayment (stripe : bool) (method : string + string)
    (update : UpdateReply) (insert : option string)
    (st : Store.t) (f : PaymentForm.t) : Store.t * PaymentForm.t * bool :=
  if negb stripe || negb (bool_decide (PaymentForm.requestStatus f = accepted)) then
    (st, f, false)
  else
    let f := PaymentForm.setError "" (PaymentForm.setProcessing true f) in
    let thrown (st : Store.t) (message : string) :=
      (st, PaymentForm.setProcessing false (PaymentForm.setError message f), false) in
    match method with
    | inl stripeError => thrown st stripeError
    | inr paymentMethod =>
        let '(bookings, updateError) :=
          update_status (PaymentForm.bookingId f) "confirmed" update (Store.bookings st) in
        match updateError with
        | Some message => thrown st message
        | None =>
            let st := Store_ops.with_bookings bookings st in
            match insert, decimal_10_2 (BookingData.price (PaymentForm.data f)) with
            | Some message, _ => thrown st message
            | None, None => thrown st "null value in column amount"%string
            | None, Some amount =>
                let payment :=
                  Payment.mk (PaymentForm.bookingId f) paymentMethod amount "completed" in
                (Store_ops.with_payments (Store.payments st ++ [payment]) st,
                 (* [onSuccess()] leaves the page; the [finally] then
                    finds the component gone *)
                 PaymentForm.setProcessing false (PaymentForm.unmount f),
                 true)
            end
        end
    end.

(** ** The therapist dashboard ([TherapistDashboard]) *)

Module Dashboard.
Record t : Type := mk {
  user : positive;
  bookings : gmap positive Booking.t      (* the list last fetched *)
}.

Inductive Button : Type := Accept | Decline.

#[global] Instance Button_eq_dec : EqDecision Button.
Proof. solve_decision. Defined.

(** The second argument of [handleBookingResponse] behind each button. *)
Definition response (b : Button) : string :=
  match b with Accept => "confirmed" | Decline => "declined" end.

(** [{booking.status === 'requested' && ( <Accept/> <Decline/> )}] *)
Definition buttons (booking : Booking.t) : list Button :=
  if bool_decide (Booking.status booking = requested) then [Accept; Decline] else [].
End Dashboard.

(** [fetchBookings]: the rows of the therapist whose status is
    ['requested'] or ['confirmed'] (their order is not modelled); an
    answer without data shows an empty list. *)
Definition fetchBookings (ok : bool) (st : Store.t) (d : Dashboard.t) : Dashboard.t :=
  Dashboard.mk (Dashboard.user d)
    (if ok then
       filter (fun kv : positive * Booking.t =>
                 Booking.therapist_id kv.2 = Dashboard.user d /\
                 (Booking.status kv.2 = requested \/ Booking.status kv.2 = confirmed))
              (Store.bookings st)
     else ∅).

(** [handleBookingResponse]: the update, and whether [fetchBookings] is
    started afterwards.  Nothing is thrown to the caller and nothing is
    returned. *)
Definition handleBookingResponse (bookingId : positive) (response : string)
    (reply : UpdateReply) (st : Store.t) : Store.t * bool :=
  let '(bookings, error) :=
    update_status (Some bookingId) response reply (Store.bookings st) in
  (Store_ops.with_bookings bookings st,
   match error with None => true | Some _ => false end).

(** ** The system: one payment form, one dashboard, the store, a clock

    Time is in milliseconds since the form mounted.  Timers are ideal:
    a callback runs at the instant it is due, callbacks that are due run
    before anything else happens, and rendering (with the effects and
    cleanups it triggers) takes no time.  A form that has left the page
    is not mounted again: going back and forth in the wizard makes a new
    form, with a request of its own. *)

Record System : Type := mkSystem {
  now : Z;
  step : Z;                       (* [step] of [BookingFlow]; the form is step 6 *)
  store : Store.t;
  form : PaymentForm.t;
  dashboard : Dashboard.t
}.

Definition with_form (f : PaymentForm.t) (s : System) : System :=
  mkSystem (now s) (step s) (store s) f (dashboard s).
Definition with_store (st : Store.t) (s : System) : System :=
  mkSystem (now s) (step s) st (form s) (dashboard s).

(** The state after the first render of [PaymentForm] and its two
    effects, in the order of the source. *)
Definition mount (st : Store.t) (therapist : positive) (data : BookingData.t)
    (user : positive) (latency : Z) (reply : InsertReply) : System :=
  let f := PaymentForm.mk data user false "" None pending 120 true None None None in
  let f := createBookingRequest 0 latency reply f in
  let f := PaymentForm.countdownEffect 0 f in
  mkSystem 0 6 st f (Dashboard.mk therapist ∅).

(** The callbacks the form can have pending. *)
Inductive Task : Type := InsertAnswer | ResponseTimer | CountdownTimer.

(** The earlier of two pending callbacks; the first one on a tie. *)
Definition pick (a b : option (Task * Z)) : option (Task * Z) :=
  match a, b with
  | Some (_, da), Some (_, db) => if da <=? db then a else b
  | Some _, None => a
  | None, _ => b
  end.

(** The callback that runs next, with the time it is due.  On a tie the
    timer of the simulated response, armed before the running countdown
    timer, goes first. *)
Definition next_task (f : PaymentForm.t) : option (Task * Z) :=
  pick (pick ((fun r => (InsertAnswer, r.1)) <$> PaymentForm.insertRequest f)
             ((fun d => (ResponseTimer, d)) <$> PaymentForm.responseTimer f))
       ((fun c => (CountdownTimer, c.1)) <$> PaymentForm.countdownTimer f).

Definition run_task (task : Task) (s : System) : System :=
  let f := form s in
  match task with
  | InsertAnswer =>
      match PaymentForm.insertRequest f with
      | Some (_, reply) =>
          let '(st, f) :=
            createBookingRequest_resumed (now s) reply (store s)
              (PaymentForm.with_insertRequest None f) in
          with_form f (with_store st s)
      | None => s
      end
  | ResponseTimer =>
      (* [() => setRequestStatus('accepted')] *)
      with_form (PaymentForm.setRequestStatus (now s) accepted
                   (PaymentForm.with_responseTimer None f)) s
  | CountdownTimer =>
      match PaymentForm.countdownTimer f with
      | Some (_, timeRemaining) =>
          (* [() => setTimeRemaining(timeRemaining - 1)] *)
          with_form (PaymentForm.setTimeRemaining (now s) (timeRemaining - 1)
                       (PaymentForm.with_countdownTimer None f)) s
      | None => s
      end
  end.

Inductive Event : Type :=
| Wait (t : Z)                   (* time passes until [t]; nothing is due by then *)
| Fire                           (* the callback due first runs, at its due time *)
| Pay (stripe : bool) (method : string + string)
      (update : UpdateReply) (insert : option string)   (* the form is submitted *)
| Back                           (* [onBack]: the customer leaves the form *)
| Fetch (ok : bool)              (* an answer to [fetchBookings] arrives *)
| Click (bookingId : positive) (button : Dashboard.Button) (reply : UpdateReply)
| CatalogueEdit (services : list Service.t)   (* the table [services] is edited *)
| OtherInsert (id : positive) (row : Booking.t). (* a request of another customer *)

(** One event; [None] when the event cannot happen in the state. *)
Definition exec (e : Event) (s : System) : option System :=
  match e with
  | Wait t =>
      if (now s <=? t) &&
         match next_task (form s) with Some (_, due) => t <? due | None => true end
      then Some (mkSystem t (step s) (store s) (form s) (dashboard s))
      else None
  | Fire =>
      match next_task (form s) with
      | Some (task, due) =>
          Some (run_task task (mkSystem due (step s) (store s) (form s) (dashboard s)))
      | None => None
      end
  | Pay stripe method update insert =>
      if PaymentForm.mounted (form s) then
        let '(st, f, success) :=
          handlePayment stripe method update insert (store s) (form s) in
        Some (mkSystem (now s) (if success then 7 else step s) st f (dashboard s))
      else None
  | Back =>
      if PaymentForm.mounted (form s) then
        Some (mkSystem (now s) 5 (store s) (PaymentForm.unmount (form s)) (dashboard s))
      else None
  | Fetch ok =>
      Some (mkSystem (now s) (step s) (store s) (form s)
              (fetchBookings ok (store s) (dashboard s)))
  | Click bookingId button reply =>
      match Dashboard.bookings (dashboard s) !! bookingId with
      | Some booking =>
          if bool_decide (button ∈ Dashboard.buttons booking) then
            Some (with_store
                    (handleBookingResponse bookingId (Dashboard.response button)
                       reply (store s)).1 s)
          else None
      | None => None
      end
  | CatalogueEdit services =>
      Some (with_store (Store_ops.with_services services (store s)) s)
  | OtherInsert id row =>
      match Store.bookings (store s) !! id with
      | None =>
          if bool_decide (Booking.status row = requested) then
            Some (with_store
                    (Store_ops.with_bookings (<[id := row]> (Store.bookings (store s)))
                       (store s)) s)
          else None
      | Some _ => None
      end
  end.

(** A sequence of events, from left to right. *)
Fixpoint run (es : list Event) (s : System) : option System :=
  match es with
  | [] => Some s
  | e :: es =>
      match exec e s with
      | Some s' => run es s'
      | None => None
      end
  end.

(** No callback is due at the current instant. *)
Definition settled (s : System) : bool :=
  match next_task (form s) with
  | Some (_, due) => now s <? due
  | None => true
  end.

(** ** Concrete inputs

    The values the closed examples below are run on. *)

Module Example.
Definition stressbuster : Service.t := Service.mk 1 "Stressbuster" 60 80 30 40.
Definition therapist : Therapist.t := Therapist.mk 7 "Robin".
Definition customer : positive := 3%positive.

(** A booking for 120 minutes of the first service. *)
Definition data : BookingData.t :=
  wizard [SubmitAddress "1 George St" (-33 # 1) (151 # 1);
          SubmitService (Some 0%nat) (Some 2%nat);
          SubmitDateTime "2025-03-01" "09:30";
          SubmitTherapist therapist;
          SubmitDetails "street" "upstairs"].

(** The same booking with a duration the [<select>] does not offer. *)
Definition data_75 : BookingData.t :=
  updateBookingData (ServiceStep.handleSubmit (Some stressbuster) 75) data.

Definition empty_store : Store.t := Store.mk ∅ [] SERVICES.

(** The form mounted on an empty store; the insert is answered after
    [latency] milliseconds with the new id 1. *)
Definition system (latency : Z) : System :=
  mount empty_store (Therapist.id therapist) data customer latency (Inserted 1).

(** The same form, for the booking of 75 minutes. *)
Definition system_75 : System :=
  mount empty_store (Therapist.id therapist) data_75 customer 200 (Inserted 1).

(** Two answers of [stripe.createPaymentMethod]. *)
Definition card_declined : string + string := inl "Your card was declined."%string.
Definition card_accepted : string + string := inr "pm_1"%string.

(** The state a sequence of events ends in. *)
Definition final (es : list Event) (s0 : System) : System :=
  match run es s0 with Some s => s | None => s0 end.

Definition stored_status (s : System) : option BookingStatus :=
  Booking.status <$> (Store.bookings (store s) !! 1%positive).
Definition stored_price (s : System) : option Q :=
  Booking.price <$> (Store.bookings (store s) !! 1%positive).
End Example.

(** ** Rows over time

    [same_rows m m']: every row of [m] is still in [m'], with every
    column but [status] as it was, and with a status that is
    ['requested'] only if it was. *)
Definition same_rows (m m' : gmap positive Booking.t) : Prop :=
  forall (id : positive) (b : Booking.t),
    m !! id = Some b ->
    exists st, m' !! id = Some (Booking.with_status st b)
               /\ (st = requested -> Booking.status b = requested).

(** The request the form has created is stored at the price of its
    booking data, for the service and the duration held there. *)
Definition snapshot_inv (data : BookingData.t) (s : System) : Prop :=
  PaymentForm.data (form s) = data /\
  forall id : positive,
    PaymentForm.bookingId (form s) = Some id ->
    exists b : Booking.t,
      Store.bookings (store s) !! id = Some b
      /\ decimal_10_2 (BookingData.price data) = Some (Booking.price b)
      /\ Booking.duration b = BookingData.duration data
      /\ Service.id <$> BookingData.service data = Some (Booking.service_id b).

(** ** What holds of the clock, the countdown and the pending callbacks

    [latency] is the delay of the answer to the insert.  While the form is
    mounted and pending, a countdown timer is armed, for the second that
    follows the [timeRemaining] it captured; the answer of the insert is
    due at [latency], the simulated response 5000 ms later; once the
    response has run on a mounted form the status is ['accepted'] for
    good. *)
Definition timing_inv (latency : Z) (s : System) : Prop :=
  let f := form s in
  0 <= now s
  /\ 0 <= PaymentForm.timeRemaining f <= 120
  /\ match PaymentForm.countdownTimer f with
     | Some (due, c) =>
         c = PaymentForm.timeRemaining f
         /\ PaymentForm.mounted f = true
         /\ PaymentForm.requestStatus f = pending
         /\ 1 <= c
         /\ due = (121 - c) * 1000
         /\ due - 1000 <= now s <= due
     | None => PaymentForm.mounted f = true -> PaymentForm.requestStatus f <> pending
     end
  /\ (PaymentForm.requestStatus f = timeout ->
      PaymentForm.timeRemaining f = 0 /\ 120000 <= now s)
  /\ match PaymentForm.insertRequest f with
     | Some (due, _) =>
         due = latency
         /\ now s <= due
         /\ PaymentForm.bookingId f = None
         /\ PaymentForm.responseTimer f = None
         /\ PaymentForm.requestStatus f <> accepted
     | None => True
     end
  /\ match PaymentForm.responseTimer f with
     | Some due => due = latency + 5000 /\ now s <= due
     | None =>
         PaymentForm.bookingId f <> None ->
         latency + 5000 <= now s
         /\ (PaymentForm.mounted f = true -> PaymentForm.requestStatus f = accepted)
     end
  /\ (latency <= 115000 ->
      PaymentForm.requestStatus f = timeout ->
      PaymentForm.bookingId f = None
      /\ PaymentForm.insertRequest f = None
      /\ PaymentForm.responseTimer f = None).

(** ** Strings of numbers *)

Module JSString.
(** [Number.prototype.toString], on an integer. *)
Definition toString (n : Z) : string := pretty n.

(** [String.prototype.padStart(targetLength, padString)] with a pad of
    one character. *)
Fixpoint pad_chars (k : nat) (pad : ascii) (s : string) : string :=
  match k with
  | O => s
  | S k => String pad (pad_chars k pad s)
  end.

Definition padStart (targetLength : nat) (pad : ascii) (s : string) : string :=
  pad_chars (targetLength - String.length s) pad s.
End JSString.

(** [formatTime] of [PaymentForm]: [Math.floor] of the quotient, and the
    remainder of [%], which has the sign of the dividend. *)
Definition formatTime (seconds : Z) : string :=
  let mins := seconds / 60 in
  let secs := Z.rem seconds 60 in
  (JSString.toString mins +:+ ":" +:+
   JSString.padStart 2 "0" (JSString.toString secs))%string.

(** [generateTimeSlots] of [DateTimeStep]: the loop over the hours from 8
    while [hour < 20], with its two [push]es. *)
Definition generateTimeSlots : list string :=
  foldl (fun (slots : list string) (hour : Z) =>
           (slots ++ [(JSString.padStart 2 "0" (JSString.toString hour) +:+ ":00")%string])
                  ++ [(JSString.padStart 2 "0" (JSString.toString hour) +:+ ":30")%string])
        [] (seqZ 8 (20 - 8)).


(** ** The wizard, step by step ([BookingFlow])

    [AddressStep] places every address near the centre of Sydney, with
    two calls of [Math.random], whose values lie in [0, 1). *)
Module AddressStep.
Definition handleSubmit (address : string) (random1 random2 : Q) : StepData :=
  AddressData address
    ((-338688 # 10000) + (random1 - (1 # 2)) * (1 # 10))%Q
    ((1512093 # 10000) + (random2 - (1 # 2)) * (1 # 10))%Q.
End AddressStep.

Definition random_value (r : Q) : bool := Qle_bool 0 r && negb (Qle_bool 1 r).

Inductive StepComponent : Type :=
| AddressStepC | ServiceStepC | DateTimeStepC | TherapistStepC
| BookingDetailsStepC | PaymentStepC | ThankYouStepC.

Module BookingFlow.
Record t : Type := mk {
  step : Z;
  bookingData : BookingData.t
}.

Definition initial : t := mk 1 BookingData.initial.

(** [setBookingData({})].  The fields of the empty object are
    [undefined]; each is represented by the value its readers replace
    [undefined] with ([data.address || ''], [data.service || null],
    [data.duration || 60], ...), the price, which is written before it
    is read again, by [NaN]. *)
Definition empty_data : BookingData.t :=
  BookingData.mk "" None None None 0 "" "" None "" "" JS.NaN.

(** [renderStep]; [None] is the [default] branch. *)
Definition renderStep (s : t) : option StepComponent :=
  match step s with
  | 1 => Some AddressStepC
  | 2 => Some ServiceStepC
  | 3 => Some DateTimeStepC
  | 4 => Some TherapistStepC
  | 5 => Some BookingDetailsStepC
  | 6 => Some PaymentStepC
  | 7 => Some ThankYouStepC
  | _ => None
  end.
End BookingFlow.

(** The options of the [<select>] of [DateTimeStep]. *)
Definition TIME_OPTIONS : list string := ""%string :: generateTimeSlots.

(** What the customer does in the wizard.  A submission carries the
    state of its step at that moment: text fields hold what was typed,
    the radio buttons and the [<select>]s either were left alone or hold
    the entry chosen last.  A submit button that is disabled, or a
    [required] field that is empty, keeps the step from being
    submitted. *)
Inductive FlowEvent : Type :=
| AddressNext (address : string) (random1 random2 : Q)
| ServiceNext (radio chosen : option nat)
| DateTimeNext (date : string) (chosen : option nat)
| TherapistNext (radio : option Therapist.t)
| DetailsNext (parking roomDetails : string)
| StepBack
| PaymentSuccess
| NewBooking.

Definition flow (e : FlowEvent) (s : BookingFlow.t) : option BookingFlow.t :=
  let data := BookingFlow.bookingData s in
  let at_step (k : Z) (next : option BookingFlow.t) :=
    if BookingFlow.step s =? k then next else None in
  match e with
  | AddressNext address random1 random2 =>
      at_step 1
        (if negb (String.eqb address "") && random_value random1 && random_value random2
         then Some (BookingFlow.mk 2
                      (updateBookingData
                         (AddressStep.handleSubmit address random1 random2) data))
         else None)
  | ServiceNext radio chosen =>
      at_step 2
        (match submit_data data (SubmitService radio chosen) with
         | Some submitted => Some (BookingFlow.mk 3 (updateBookingData submitted data))
         | None => None
         end)
  | DateTimeNext date chosen =>
      let time :=
        match chosen with
        | Some i => nth i TIME_OPTIONS (BookingData.time data)
        | None => BookingData.time data
        end in
      at_step 3
        (if negb (String.eqb date "") && negb (String.eqb time "")
         then Some (BookingFlow.mk 4 (updateBookingData (DateTimeData date time) data))
         else None)
  | TherapistNext radio =>
      let selectedTherapist :=
        match radio with
        | Some therapist => Some therapist
        | None => BookingData.therapist data
        end in
      at_step 4
        (match selectedTherapist with
         | Some _ =>
             Some (BookingFlow.mk 5 (updateBookingData (TherapistData selectedTherapist) data))
         | None => None
         end)
  | DetailsNext parking roomDetails =>
      at_step 5
        (Some (BookingFlow.mk 6 (updateBookingData (DetailsData parking roomDetails) data)))
  | StepBack =>
      if (2 <=? BookingFlow.step s) && (BookingFlow.step s <=? 6)
      then Some (BookingFlow.mk (BookingFlow.step s - 1) data)
      else None
  | PaymentSuccess =>
      at_step 6 (Some (BookingFlow.mk 7 data))
  | NewBooking =>
      at_step 7 (Some (BookingFlow.mk 1 BookingFlow.empty_data))
  end.

Fixpoint flow_run (es : list FlowEvent) (s : BookingFlow.t) : option BookingFlow.t :=
  match es with
  | [] => Some s
  | e :: es =>
      match flow e s with
      | Some s' => flow_run es s'
      | None => None
      end
  end.

(** What the steps passed so far have left in the booking data. *)
Definition flow_inv (s : BookingFlow.t) : Prop :=
  let d := BookingFlow.bookingData s in
  1 <= BookingFlow.step s <= 7
  /\ (BookingData.time d = ""%string \/ In (BookingData.time d) generateTimeSlots)
  /\ (BookingData.duration d = 0 \/ In (BookingData.duration d) DURATION_OPTIONS)
  /\ (forall tier, BookingData.service d = Some tier -> In tier SERVICES)
  /\ (3 <= BookingFlow.step s ->
      BookingData.service d <> None
      /\ In (BookingData.duration d) DURATION_OPTIONS
      /\ BookingData.price d
         = calculatePrice (BookingData.service d) (BookingData.duration d))
  /\ (4 <= BookingFlow.step s ->
      BookingData.date d <> ""%string /\ In (BookingData.time d) generateTimeSlots)
  /\ (5 <= BookingFlow.step s -> BookingData.therapist d <> None).

Module FlowExample.
(** A customer who walks through the five steps, goes back once to pick
    another duration, and arrives at the payment step. *)
Definition events : list FlowEvent :=
  [AddressNext "1 George St" (1 # 4) (3 # 4);
   ServiceNext (Some 2%nat) None;
   DateTimeNext "2025-03-01" (Some 4%nat);
   StepBack; StepBack;
   ServiceNext None (Some 1%nat);
   DateTimeNext "2025-03-01" None;
   TherapistNext (Some Example.therapist);
   DetailsNext "street" "upstairs"].

Definition final (es : list FlowEvent) : BookingFlow.t :=
  match flow_run es BookingFlow.initial with
  | Some s => s
  | None => BookingFlow.initial
  end.
End FlowExample.

(** A request the dashboard cannot answer any more: it is stored with a
    status other than ['requested'], and the list of the dashboard does
    not show it as ['requested'] either. *)
Definition answered (id : positive) (s : System) : Prop :=
  (exists b, Store.bookings (store s) !! id = Some b /\ Booking.status b <> requested)
  /\ (forall b, Dashboard.bookings (dashboard s) !! id = Some b ->
                Booking.status b <> requested).

(** ** The users ([users], [therapist_profiles]) *)

Module Role.
(** [CHECK (role IN ('customer', 'therapist', 'admin'))] *)
Inductive t : Type := customer | therapist | admin.

#[global] Instance eq_dec : EqDecision t.
Proof. solve_decision. Defined.
End Role.

Module User.
Record t : Type := mk {
  name : string;
  email : string;
  phone : string;
  role : Role.t
}.
End User.

(** ** The reports of the admin dashboard ([AdminDashboard]) *)

Module Stats.
Record t : Type := mk {
  totalBookings : Z;
  totalRevenue : JS.number;
  activeTherapists : Z;
  todaysBookings : Z
}.
End Stats.

(** [x || 0] on a number: [0] and [NaN] are falsy. *)
Definition or_zero (x : JS.number) : JS.number :=
  match x with
  | JS.Fin q => if Qeq_bool q 0 then JS.of_Z 0 else x
  | JS.NaN => JS.of_Z 0
  | _ => x
  end.

(** The two queries of the reports: the bookings whose status is
    ['confirmed'], and the users whose role is ['therapist'].  The rows
    come in the order of the table. *)
Definition confirmed_bookings (st : Store.t) : list Booking.t :=
  (map_to_list
     (filter (fun kv : positive * Booking.t => Booking.status kv.2 = confirmed)
             (Store.bookings st))).*2.

Definition therapist_users (users : gmap positive User.t) : list positive :=
  (map_to_list
     (filter (fun kv : positive * User.t => User.role kv.2 = Role.therapist) users)).*1.

(** The branch [view === 'reports'] of [fetchData], on the data of the
    two answers ([None] for an answer without data). *)
Definition report (today : string) (bookingStats : option (list Booking.t))
    (therapistCount : option (list positive)) : Stats.t :=
  let todaysBookings :=
    match bookingStats with
    | Some rows =>
        Z.of_nat (length (List.filter (fun b => String.eqb (Booking.date b) today) rows))
    | None => 0
    end in
  let totalRevenue :=
    match bookingStats with
    | Some rows =>
        or_zero (fold_left (fun sum b => JS.add sum (JS.Fin (Booking.price b)))
                           rows (JS.of_Z 0))
    | None => JS.of_Z 0
    end in
  Stats.mk
    (match bookingStats with Some rows => Z.of_nat (length rows) | None => 0 end)
    totalRevenue
    (match therapistCount with Some ids => Z.of_nat (length ids) | None => 0 end)
    todaysBookings.

Definition fetchReports (today : string) (bookings_ok users_ok : bool)
    (st : Store.t) (users : gmap positive User.t) : Stats.t :=
  report today
    (if bookings_ok then Some (confirmed_bookings st) else None)
    (if users_ok then Some (therapist_users users) else None).

(** The sum of the prices of a list of bookings. *)
Definition revenue (rows : list Booking.t) : Q :=
  foldr (fun b acc => (Booking.price b + acc)%Q) 0%Q rows.

(** ** What holds of the payments

    [payments] is the table [payments] when the form mounted.  On a form
    that is on the page the simulated response is armed only once the
    request has an id, and the thank-you page (step 7) is reached with one payment written. *)
Definition payment_inv (payments : list Payment.t) (s : System) : Prop :=
  let f := form s in
  match PaymentForm.insertRequest f with
  | Some _ =>
      PaymentForm.bookingId f = None
      /\ PaymentForm.responseTimer f = None
      /\ PaymentForm.requestStatus f <> accepted
  | None => True
  end
  /\ (PaymentForm.requestStatus f = accepted
      \/ (PaymentForm.mounted f = true /\ PaymentForm.responseTimer f <> None) ->
      PaymentForm.bookingId f <> None)
  /\ (step s = 7 ->
      PaymentForm.mounted f = false
      /\ PaymentForm.insertRequest f = None
      /\ exists (id : positive) (p : Payment.t),
           PaymentForm.bookingId f = Some id
           /\ Store.payments (store s) = payments ++ [p]
           /\ Payment.booking_id p = Some id
           /\ decimal_10_2 (BookingData.price (PaymentForm.data f))
              = Some (Payment.amount p)
           /\ Payment.status p = "completed"%string)
  /\ (step s <> 7 -> Store.payments (store s) = payments).

(** ** What holds after a refused insert

    The answer to the insert of [createBookingRequest] is an error: the
    form never gets a [bookingId], the simulated response is never
    armed, and the message is shown once the answer has arrived. *)
Definition refused_inv (s : System) : Prop :=
  let f := form s in
  PaymentForm.bookingId f = None
  /\ PaymentForm.responseTimer f = None
  /\ PaymentForm.requestStatus f <> accepted
  /\ step s <> 7
  /\ match PaymentForm.insertRequest f with
     | Some (_, reply) => exists message, reply = InsertRefused message
     | None =>
         PaymentForm.mounted f = true ->
         PaymentForm.error f = "Failed to create booking request"%string
     end.

Module ReportExample.
(** A store with one request, dated 1 March 2025, at 160. *)
Definition row : Booking.t :=
  Booking.mk Example.customer (Therapist.id Example.therapist) 1 120
    "2025-03-01" "09:30" "1 George St" None None "street" "upstairs" 160 requested.
Definition store : Store.t := Store.mk {[1%positive := row]} [] SERVICES.
End ReportExample.

(** ** The application shell ([App]) *)

Module AuthUser.
Record t : Type := mk { id : positive; email : string }.
End AuthUser.

Module View.
(** The values [currentView] takes. *)
Inductive t : Type := login | booking | therapist | admin.

#[global] Instance eq_dec : EqDecision t.
Proof. solve_decision. Defined.
End View.

(** What [<main>] can hold. *)
Inductive Page : Type :=
| LoginFormPage
| BookingFlowPage (user : AuthUser.t)
| TherapistDashboardPage (user : AuthUser.t)
| AdminDashboardPage.

Module App.
Record t : Type := mk {
  user : option AuthUser.t;
  userRole : option Role.t;
  currentView : View.t;
  loading : bool
}.

Definition initial : t := mk None None View.login true.

(** [checkUser], on the answers of [supabase.auth.getUser()] and of the
    query of the role ([None] for [null]).  The two awaits are run in
    one go. *)
Definition checkUser (authUser : option AuthUser.t) (userData : option Role.t)
    (a : t) : t :=
  let a :=
    match authUser with
    | Some u =>
        let a := mk (Some u) (userRole a) (currentView a) (loading a) in
        match userData with
        | Some role =>
            mk (user a) (Some role)
               (match role with
                | Role.admin => View.admin
                | Role.therapist => View.therapist
                | Role.customer => View.booking
                end)
               (loading a)
        | None => a
        end
    | None => a
    end in
  mk (user a) (userRole a) (currentView a) false.

(** [handleLogout], and the listener of [onAuthStateChange] on an event
    without session. *)
Definition handleLogout (a : t) : t := mk None None View.login (loading a).

(** The pages inside [<main>], in the order of the source. *)
Definition main (a : t) : list Page :=
  (if negb (bool_decide (is_Some (user a))) && bool_decide (currentView a = View.login)
   then [LoginFormPage] else [])
  ++ match user a with
     | Some u =>
         (if bool_decide (userRole a = Some Role.customer)
             && bool_decide (currentView a = View.booking)
          then [BookingFlowPage u] else [])
         ++ (if bool_decide (userRole a = Some Role.therapist)
                && bool_decide (currentView a = View.therapist)
             then [TherapistDashboardPage u] else [])
         ++ (if bool_decide (userRole a = Some Role.admin)
                && bool_decide (currentView a = View.admin)
             then [AdminDashboardPage] else [])
     | None => []
     end.

(** What [App] returns: the spinner ([None]) while loading, else whether
    the navigation bar is shown, and the pages of [<main>]. *)
Definition render (a : t) : option (bool * list Page) :=
  if loading a then None
  else Some (bool_decide (is_Some (user a)), main a).

(** The page of a role. *)
Definition page_of (role : Role.t) (u : AuthUser.t) : Page :=
  match role with
  | Role.customer => BookingFlowPage u
  | Role.therapist => TherapistDashboardPage u
  | Role.admin => AdminDashboardPage
  end.
End App.

(** ** Signing up and signing in ([LoginForm]) *)

Module Profile.
Record t : Type := mk { bio : string; lat : Q; lon : Q }.
End Profile.

Module Backend.
(** The tables [users] and [therapist_profiles], by primary key. *)
Record t : Type := mk {
  users : gmap positive User.t;
  therapist_profiles : gmap positive Profile.t
}.
End Backend.

(** The answer of [supabase.auth.signUp]: an error, or the data, whose
    [user] can be [null]. *)
Inductive SignUpReply : Type :=
| AuthError (message : string)
| AuthData (user : option positive).

Module Answers.
(** The answers to the requests of one [handleSubmit]; for the inserts
    and the sign-in, the message of the error if there is one. *)
Record t : Type := mk {
  signUp : SignUpReply;
  userInsert : option string;
  profileInsert : option string;
  signIn : option string
}.
End Answers.

(** An insert of one row by primary key: refused by the answer, or by
    the key when it is taken. *)
Definition insert_row {A : Type} (reply : option string) (id : positive) (row : A)
    (table : gmap positive A) : gmap positive A * option string :=
  match reply with
  | Some message => (table, Some message)
  | None =>
      match table !! id with
      | Some _ => (table, Some "duplicate key value"%string)
      | None => (<[id := row]> table, None)
      end
  end.

Module LoginForm.
Record t : Type := mk {
  email : string;
  password : string;
  name : string;
  phone : string;
  isSignup : bool;
  isTherapist : bool;
  error : string;
  loading : bool
}.

Definition with_status (error : string) (loading : bool) (f : t) : t :=
  mk (email f) (password f) (name f) (phone f) (isSignup f) (isTherapist f)
     error loading.

(** [handleSubmit]; the awaits are run in one go.  The result tells
    whether [onSuccess] was called.  [email UNIQUE] is left to the
    answer of the insert. *)
Definition handleSubmit (answers : Answers.t) (db : Backend.t) (f : t)
    : Backend.t * t * bool :=
  let thrown (db : Backend.t) (message : string) :=
    (db, with_status message false f, false) in
  let succeeded (db : Backend.t) := (db, with_status "" false f, true) in
  if isSignup f then
    match Answers.signUp answers with
    | AuthError message => thrown db message
    | AuthData None => succeeded db
    | AuthData (Some id) =>
        let row :=
          User.mk (name f) (email f) (phone f)
            (if isTherapist f then Role.therapist else Role.customer) in
        match insert_row (Answers.userInsert answers) id row (Backend.users db) with
        | (_, Some message) => thrown db message
        | (users, None) =>
            let db := Backend.mk users (Backend.therapist_profiles db) in
            if isTherapist f then
              match insert_row (Answers.profileInsert answers) id (Profile.mk "" 0 0)
                      (Backend.therapist_profiles db) with
              | (_, Some message) => thrown db message
              | (profiles, None) => succeeded (Backend.mk (Backend.users db) profiles)
              end
            else succeeded db
        end
    end
  else
    match Answers.signIn answers with
    | Some message => thrown db message
    | None => succeeded db
    end.
End LoginForm.

(** A sequence of submissions, by any visitors, from left to right. *)
Definition submissions (calls : list (Answers.t * LoginForm.t)) (db : Backend.t)
    : Backend.t :=
  foldl (fun db call => (LoginForm.handleSubmit call.1 db call.2).1.1) db calls.

(** Every therapist profile belongs to a user whose role is
    ['therapist']. *)
Definition profiles_of_therapists (db : Backend.t) : Prop :=
  forall (id : positive) (p : Profile.t),
    Backend.therapist_profiles db !! id = Some p ->
    exists u, Backend.users db !! id = Some u /\ User.role u = Role.therapist.

Module SignupExample.
Definition robin : LoginForm.t :=
  LoginForm.mk "robin@example.org" "secret" "Robin" "0400 000 000" true true "" false.
Definition kim : LoginForm.t :=
  LoginForm.mk "kim@example.org" "secret" "Kim" "0400 000 001" true false "" false.
Definition calls : list (Answers.t * LoginForm.t) :=
  [(Answers.mk (AuthData (Some 7%positive)) None None None, robin);
   (Answers.mk (AuthData (Some 3%positive)) None None None, kim);
   (Answers.mk (AuthData (Some 8%positive)) None (Some "permission denied"%string) None,
    robin)].
End SignupExample.

(** [fetchAvailableTherapists] of the therapist step: every user whose
    role is ['therapist'] (the select of [id, name, email] is kept as
    the [id] and the [name]); an answer without data gives the empty
    list. *)
Definition fetchAvailableTherapists (ok : bool) (users : gmap positive User.t)
    : list Therapist.t :=
  if ok then
    (fun kv : positive * User.t => Therapist.mk kv.1 (User.name kv.2))
      <$> map_to_list
            (filter (fun kv : positive * User.t => User.role kv.2 = Role.therapist)
                    users)
  else [].

(** ** Proof automation *)

(** Unfolds the setters of the form on a form given by its fields. *)
Ltac unfold_form :=
  unfold PaymentForm.setProcessing, PaymentForm.setError, PaymentForm.setBookingId,
    PaymentForm.setRequestStatus, PaymentForm.setTimeRemaining, PaymentForm.unmount,
    PaymentForm.countdownEffect in *;
  simpl in *.

(** Uses or discards the hypotheses whose premise is decided by
    computation, equational reasoning or linear arithmetic. *)
Ltac use_premises :=
  repeat match goal with
  | H : _ /\ _ |- _ => destruct H
  | H : ?P -> _ |- _ =>
      match type of P with Prop => idtac end;
      first [ let HP := fresh in
              assert (HP : P) by (first [reflexivity | discriminate | congruence | lia]);
              specialize (H HP); clear HP
            | let HN := fresh in
              assert (HN : ~ P) by (first [discriminate | congruence | lia]);
              clear H HN ]
  end.
Ltac inv_tac :=
  simpl in *; use_premises; repeat split; intros; use_premises;
  first [lia | congruence | discriminate | contradiction | idtac].

(** * Properties *)

(** ** Pricing *)

Section Pricing.

Lemma inject_Z_nonzero (z : Z) : z <> 0 -> ~ (inject_Z z == 0)%Q.
Proof.
  intros Hz H. apply Hz.
  unfold Qeq, inject_Z in H. simpl in H. lia.
Qed.

Lemma Qeq_bool_inject_Z_nonzero (z : Z) :
  z <> 0 -> Qeq_bool (inject_Z z) 0 = false.
Proof.
  intros Hz. destruct (Qeq_bool (inject_Z z) 0) eqn:E; [|reflexivity].
  apply Qeq_bool_eq in E. now apply inject_Z_nonzero in E.
Qed.

(** With a non-zero increment the price is the finite number the
    three lines of the function spell out, whatever the duration. *)
Lemma calculatePrice_finite (tier : Service.t) (duration : Z) :
  Service.increment tier <> 0 ->
  calculatePrice (Some tier) duration =
  JS.Fin (Service.basePrice tier +
          (inject_Z duration + - inject_Z (Service.baseDuration tier))
          / inject_Z (Service.increment tier)
          * Service.incrementPrice tier)%Q.
Proof.
  intros Hi. unfold calculatePrice, JS.sub, JS.of_Z. simpl.
  now rewrite Qeq_bool_inject_Z_nonzero.
Qed.

Lemma calculatePrice_linear (tier : Service.t) (k : Z) :
  Service.increment tier <> 0 ->
  calculatePrice (Some tier)
    (Service.baseDuration tier + k * Service.increment tier)
  =js JS.Fin (Service.basePrice tier + inject_Z k * Service.incrementPrice tier)%Q.
Proof.
  intros Hi. rewrite calculatePrice_finite by assumption. simpl.
  rewrite inject_Z_plus, inject_Z_mult.
  field. now apply inject_Z_nonzero.
Qed.

(** A tier whose increment is zero has no price at its base duration:
    [0 / 0] is [NaN]. *)
Lemma calculatePrice_zero_increment (tier : Service.t) :
  Service.increment tier = 0 ->
  calculatePrice (Some tier) (Service.baseDuration tier) = JS.NaN.
Proof.
  intros Hi. unfold calculatePrice, JS.sub, JS.of_Z. rewrite Hi. simpl.
  assert (H : (inject_Z (Service.baseDuration tier)
               + - inject_Z (Service.baseDuration tier) ?= 0)%Q = Eq).
  { apply Qeq_alt. ring. }
  unfold JS.signed_inf. now rewrite H.
Qed.

End Pricing.



(** C9. With no service ([null]) the price is 0, for every duration. *)
Theorem calculatePrice_null (duration : Z) :
  calculatePrice None duration = JS.of_Z 0.
Proof. reflexivity. Qed.

(** ** The wizard

    What [PaymentStep] receives: the price is the one [calculatePrice]
    gives for the service and the duration held next to it, the service
    is one of [SERVICES] and the duration one of the three options. *)

Section Wizard.

Lemma wizard_inv_initial : wizard_inv BookingData.initial.
Proof.
  unfold wizard_inv; simpl. repeat split; [tauto | discriminate].
Qed.

Lemma wizard_inv_step (d : BookingData.t) (e : StepSubmit) :
  wizard_inv d -> wizard_inv (wizard_step d e).
Proof.
  intros (Hp & Hd & Hs). unfold wizard_step.
  destruct e as [a la lo | radio chosen | da ti | th | pa ro];
    destruct d as [a0 la0 lo0 s0 d0 da0 ti0 th0 pa0 ro0 pr0];
    simpl in *; try (repeat split; assumption).
  set (service := match radio with
                  | Some i => nth_error SERVICES i
                  | None => s0
                  end).
  set (shown := if d0 =? 0 then 60 else d0).
  set (duration := match chosen with
                   | Some j => nth j DURATION_OPTIONS shown
                   | None => shown
                   end).
  assert (Hshown : In shown DURATION_OPTIONS).
  { subst shown. destruct (d0 =? 0); [simpl; tauto | exact Hd]. }
  assert (Hduration : In duration DURATION_OPTIONS).
  { subst duration. destruct chosen as [j|]; [|exact Hshown].
    destruct (nth_in_or_default j DURATION_OPTIONS shown) as [H | ->];
      [exact H | exact Hshown]. }
  destruct service as [tier|] eqn:Hservice; simpl.
  - repeat split; try assumption.
    intros tier' [= <-]. subst service.
    destruct radio as [i|]; [now apply nth_error_In in Hservice | now apply Hs].
  - repeat split; assumption.
Qed.

Lemma wizard_inv_fold (es : list StepSubmit) (d : BookingData.t) :
  wizard_inv d -> wizard_inv (fold_left wizard_step es d).
Proof.
  revert d. induction es as [|e es IH]; intros d Hd; simpl; [exact Hd|].
  apply IH, wizard_inv_step, Hd.
Qed.

Lemma wizard_invariant (es : list StepSubmit) : wizard_inv (wizard es).
Proof. apply wizard_inv_fold, wizard_inv_initial. Qed.

(** Every offered duration is a legal one for every tier on sale. *)
Lemma options_obey_increment_rule (tier : Service.t) (d : Z) :
  In tier SERVICES -> In d DURATION_OPTIONS -> increment_rule tier d = true.
Proof.
  unfold SERVICES, DURATION_OPTIONS. simpl.
  intros Ht Hd.
  repeat (destruct Ht as [<- | Ht];
          [repeat (destruct Hd as [<- | Hd]; [reflexivity|]); contradiction|]).
  contradiction.
Qed.

End Wizard.




(** ** Rows are written once

    The three writes of the program on [bookings] are one insert under a
    new id and two updates of the column [status]. *)

Section Frame.

Lemma with_status_id (b : Booking.t) : Booking.with_status (Booking.status b) b = b.
Proof. now destruct b. Qed.

Lemma with_status_twice (st st' : BookingStatus) (b : Booking.t) :
  Booking.with_status st' (Booking.with_status st b) = Booking.with_status st' b.
Proof. reflexivity. Qed.

Lemma same_rows_refl (m : gmap positive Booking.t) : same_rows m m.
Proof.
  intros id b Hb. exists (Booking.status b). now rewrite with_status_id.
Qed.

Lemma same_rows_trans (m1 m2 m3 : gmap positive Booking.t) :
  same_rows m1 m2 -> same_rows m2 m3 -> same_rows m1 m3.
Proof.
  intros H12 H23 id b Hb.
  destruct (H12 id b Hb) as (st & Hst & Hreq).
  destruct (H23 id _ Hst) as (st' & Hst' & Hreq').
  exists st'. rewrite Hst', with_status_twice. split; [reflexivity|].
  intros H. apply Hreq, Hreq', H.
Qed.

Lemma same_rows_insert (m : gmap positive Booking.t) (i : positive) (row : Booking.t) :
  m !! i = None -> same_rows m (<[i := row]> m).
Proof.
  intros Hi id b Hb. exists (Booking.status b).
  rewrite with_status_id, lookup_insert_ne; [auto | congruence].
Qed.

Lemma same_rows_alter (m : gmap positive Booking.t) (i : positive) (st : BookingStatus) :
  st <> requested -> same_rows m (alter (Booking.with_status st) i m).
Proof.
  intros Hst id b Hb. destruct (decide (i = id)) as [-> | Hne].
  - exists st. rewrite lookup_alter_eq, Hb. split; [reflexivity | contradiction].
  - exists (Booking.status b). now rewrite lookup_alter_ne, with_status_id.
Qed.

Lemma update_status_same_rows (i : option positive) (status : string)
    (reply : UpdateReply) (m : gmap positive Booking.t) :
  status_of_string status <> Some requested ->
  same_rows m (update_status i status reply m).1.
Proof.
  intros Hs. unfold update_status.
  destruct reply; simpl; try apply same_rows_refl.
  destruct (status_of_string status) as [st|]; simpl; try apply same_rows_refl.
  destruct i; simpl; [apply same_rows_alter; congruence | apply same_rows_refl].
Qed.

Lemma response_not_requested (button : Dashboard.Button) :
  status_of_string (Dashboard.response button) <> Some requested.
Proof. destruct button; discriminate. Qed.

Lemma createBookingRequest_resumed_same_rows (t : Z) (reply : InsertReply)
    (st : Store.t) (f : PaymentForm.t) :
  same_rows (Store.bookings st)
            (Store.bookings (createBookingRequest_resumed t reply st f).1).
Proof.
  unfold createBookingRequest_resumed.
  destruct reply as [id | msg]; simpl; [|apply same_rows_refl].
  destruct (decimal_10_2 _ ≫= _); simpl; [|apply same_rows_refl].
  destruct (Store.bookings st !! id) eqn:Hid; simpl;
    [apply same_rows_refl | now apply same_rows_insert].
Qed.

Lemma handlePayment_same_rows (stripe : bool) (method : string + string)
    (update : UpdateReply) (insert : option string)
    (st : Store.t) (f : PaymentForm.t) :
  same_rows (Store.bookings st)
            (Store.bookings (handlePayment stripe method update insert st f).1.1).
Proof.
  unfold handlePayment.
  destruct (negb stripe || _); simpl; [apply same_rows_refl|].
  destruct method as [msg | pm]; simpl; [apply same_rows_refl|].
  pose proof (update_status_same_rows
                (PaymentForm.bookingId
                   (PaymentForm.setError "" (PaymentForm.setProcessing true f)))
                "confirmed" update (Store.bookings st) ltac:(discriminate)) as H.
  destruct (update_status _ _ _ _) as [bookings [msg|]]; simpl in *;
    [apply same_rows_refl|].
  destruct insert as [msg|]; simpl; [exact H|].
  destruct (decimal_10_2 _); simpl; exact H.
Qed.

Lemma run_task_same_rows (task : Task) (s : System) :
  same_rows (Store.bookings (store s)) (Store.bookings (store (run_task task s))).
Proof.
  destruct task; simpl; try apply same_rows_refl.
  - destruct (PaymentForm.insertRequest (form s)) as [[due reply]|];
      [|apply same_rows_refl].
    pose proof (createBookingRequest_resumed_same_rows (now s) reply (store s)
                  (PaymentForm.with_insertRequest None (form s))) as H.
    destruct (createBookingRequest_resumed _ _ _ _) as [st f]. exact H.
  - destruct (PaymentForm.countdownTimer (form s)) as [[due c]|];
      apply same_rows_refl.
Qed.

Lemma exec_same_rows (e : Event) (s s' : System) :
  exec e s = Some s' ->
  same_rows (Store.bookings (store s)) (Store.bookings (store s')).
Proof.
  destruct e as [t | | stripe method update insert | | ok | id button reply
                | services | id row]; simpl; intros H.
  - destruct (_ && _); inversion H; subst; apply same_rows_refl.
  - destruct (next_task (form s)) as [[task due]|]; inversion H; subst.
    apply (run_task_same_rows task
             (mkSystem due (step s) (store s) (form s) (dashboard s))).
  - destruct (PaymentForm.mounted (form s)); [|discriminate].
    pose proof (handlePayment_same_rows stripe method update insert
                  (store s) (form s)) as Hp.
    destruct (handlePayment _ _ _ _ _ _) as [[st f] ok].
    inversion H; subst. exact Hp.
  - destruct (PaymentForm.mounted (form s)); inversion H; subst.
    apply same_rows_refl.
  - inversion H; subst. apply same_rows_refl.
  - destruct (Dashboard.bookings (dashboard s) !! id) as [b|]; [|discriminate].
    destruct (bool_decide _); inversion H; subst. simpl.
    unfold handleBookingResponse.
    pose proof (update_status_same_rows (Some id) (Dashboard.response button)
                  reply (Store.bookings (store s))
                  (response_not_requested button)) as Hu.
    destruct (update_status _ _ _ _) as [bookings err]. exact Hu.
  - inversion H; subst. apply same_rows_refl.
  - destruct (Store.bookings (store s) !! id) eqn:Hid; [discriminate|].
    destruct (bool_decide _); inversion H; subst. simpl.
    now apply same_rows_insert.
Qed.

Lemma run_same_rows (es : list Event) (s s' : System) :
  run es s = Some s' ->
  same_rows (Store.bookings (store s)) (Store.bookings (store s')).
Proof.
  revert s. induction es as [|e es IH]; intros s H; simpl in H.
  - inversion H; subst. apply same_rows_refl.
  - destruct (exec e s) as [s1|] eqn:He; [|discriminate].
    eapply same_rows_trans; [eapply exec_same_rows; eassumption | now apply IH].
Qed.

End Frame.

(** ** The price of a request *)

(** The three ways [handlePayment] ends on a mounted form: it returns at
    once; something is thrown and caught; [onSuccess] is called. *)
Lemma handlePayment_cases (stripe : bool) (method : string + string)
    (update : UpdateReply) (insert : option string)
    (st st' : Store.t) (f f' : PaymentForm.t) (success : bool) :
  PaymentForm.mounted f = true ->
  handlePayment stripe method update insert st f = (st', f', success) ->
  (success = false /\ f' = f /\ st' = st
   /\ (stripe = false \/ PaymentForm.requestStatus f <> accepted))
  \/ (success = false
      /\ stripe = true /\ PaymentForm.requestStatus f = accepted
      /\ (exists message,
             f' = PaymentForm.with_processing false (PaymentForm.with_error message f)
             /\ (forall stripeError,
                    method = inl stripeError -> message = stripeError /\ st' = st))
      /\ (st' = st
          \/ st' = Store_ops.with_bookings
                     (update_status (PaymentForm.bookingId f) "confirmed" update
                        (Store.bookings st)).1 st))
  \/ (success = true
      /\ stripe = true /\ PaymentForm.requestStatus f = accepted
      /\ f' = PaymentForm.with_mounted false
                (PaymentForm.with_countdownTimer None
                   (PaymentForm.with_error "" (PaymentForm.with_processing true f)))
      /\ exists paymentMethod amount,
           method = inr paymentMethod
           /\ decimal_10_2 (BookingData.price (PaymentForm.data f)) = Some amount
           /\ (update_status (PaymentForm.bookingId f) "confirmed" update
                 (Store.bookings st)).2 = None
           /\ st' = Store_ops.with_payments
                      (Store.payments st ++
                       [Payment.mk (PaymentForm.bookingId f) paymentMethod amount
                          "completed"])
                      (Store_ops.with_bookings
                         (update_status (PaymentForm.bookingId f) "confirmed" update
                            (Store.bookings st)).1 st)).
Proof.
  intros Hm. unfold handlePayment.
  destruct stripe; simpl; [|intros [= <- <- <-]; left; auto].
  case_bool_decide as Hacc; simpl; [|intros [= <- <- <-]; left; auto].
  destruct f as [data user proc err bid rs tr mnt ins resp cd].
  simpl in Hm, Hacc. subst mnt rs. unfold_form. simpl.
  destruct method as [msg | pm].
  { intros [= <- <- <-]. right; left. repeat split; auto.
    exists msg. split; [reflexivity|]. now intros e [= <-]. }
  destruct (update_status bid "confirmed" update (Store.bookings st))
    as [bookings [msg|]] eqn:Hupd; simpl.
  { intros [= <- <- <-]. right; left. repeat split; auto.
    exists msg. split; [reflexivity | discriminate]. }
  destruct insert as [msg|]; simpl.
  { intros [= <- <- <-]. right; left. repeat split; auto.
    exists msg. split; [reflexivity | discriminate]. }
  destruct (decimal_10_2 (BookingData.price data)) as [amount|] eqn:Hamount; simpl.
  - intros [= <- <- <-]. right; right. repeat split; auto.
    exists pm, amount. repeat split; reflexivity.
  - intros [= <- <- <-]. right; left. repeat split; auto.
    eexists. split; [reflexivity | discriminate].
Qed.

(** The callback [next_task] picks is pending, and nothing pending is
    due before it; ties go to the insert, then to the response timer. *)
Lemma next_task_spec (f : PaymentForm.t) (task : Task) (due : Z) :
  next_task f = Some (task, due) ->
  match task with
  | InsertAnswer =>
      (exists reply, PaymentForm.insertRequest f = Some (due, reply))
      /\ match PaymentForm.responseTimer f with Some d => due <= d | None => True end
      /\ match PaymentForm.countdownTimer f with Some (d, _) => due <= d | None => True end
  | ResponseTimer =>
      PaymentForm.responseTimer f = Some due
      /\ match PaymentForm.insertRequest f with Some (d, _) => due < d | None => True end
      /\ match PaymentForm.countdownTimer f with Some (d, _) => due <= d | None => True end
  | CountdownTimer =>
      (exists c, PaymentForm.countdownTimer f = Some (due, c))
      /\ match PaymentForm.insertRequest f with Some (d, _) => due < d | None => True end
      /\ match PaymentForm.responseTimer f with Some d => due < d | None => True end
  end.
Proof.
  unfold next_task, pick.
  destruct (PaymentForm.insertRequest f) as [[di reply]|],
           (PaymentForm.responseTimer f) as [dr|],
           (PaymentForm.countdownTimer f) as [[dc c]|]; simpl;
    repeat (match goal with
            | |- context [?a <=? ?b] => destruct (Z.leb_spec a b); simpl
            end);
    intros [= <- <-]; repeat split; eauto; lia.
Qed.

Lemma next_task_none (f : PaymentForm.t) :
  next_task f = None ->
  PaymentForm.insertRequest f = None
  /\ PaymentForm.responseTimer f = None
  /\ PaymentForm.countdownTimer f = None.
Proof.
  unfold next_task, pick.
  destruct (PaymentForm.insertRequest f) as [[di reply]|],
           (PaymentForm.responseTimer f) as [dr|],
           (PaymentForm.countdownTimer f) as [[dc c]|]; simpl;
    repeat (match goal with
            | |- context [?a <=? ?b] => destruct (Z.leb_spec a b); simpl
            end);
    intros ?; try discriminate; auto.
Qed.

Section Snapshot.

Lemma booking_row_fields (user : positive) (data : BookingData.t) (amount : Q)
    (row : Booking.t) :
  booking_row user data amount = Some row ->
  Booking.price row = amount
  /\ Booking.duration row = BookingData.duration data
  /\ Service.id <$> BookingData.service data = Some (Booking.service_id row).
Proof.
  unfold booking_row.
  destruct (BookingData.therapist data), (BookingData.service data);
    intros [= <-]; auto.
Qed.

(** The props never change, and [bookingId] changes only when the
    insert is answered, to the id of the row just stored. *)
Lemma exec_bookingId (e : Event) (s s' : System) :
  exec e s = Some s' ->
  PaymentForm.data (form s') = PaymentForm.data (form s)
  /\ (PaymentForm.bookingId (form s') = PaymentForm.bookingId (form s)
      \/ exists id amount row,
           PaymentForm.bookingId (form s') = Some id
           /\ decimal_10_2 (BookingData.price (PaymentForm.data (form s))) = Some amount
           /\ booking_row (PaymentForm.user (form s)) (PaymentForm.data (form s)) amount
              = Some row
           /\ Store.bookings (store s') !! id = Some row).
Proof.
  destruct s as [t stp st [data user proc err bid rs tr mnt ins resp cd] dash].
  destruct e as [t' | | stripe method update insert | | ok | id button reply
                | services | id row]; simpl; intros H.
  - destruct (_ && _); inversion H; subst; simpl; auto.
  - destruct (next_task _) as [[task due]|] eqn:Hnext; [|discriminate].
    apply next_task_spec in Hnext. simpl in Hnext.
    destruct task; simpl in H.
    + destruct Hnext as ([reply ->] & _). simpl in H.
      unfold createBookingRequest_resumed in H. unfold_form. simpl in H.
      repeat case_match; simplify_eq/=; (split; [reflexivity|]); auto.
      right. simplify_option_eq. eexists _, _, _. repeat split; eauto.
      apply lookup_insert_eq.
    + unfold_form. simpl in H.
      repeat case_match; simplify_eq/=; auto.
    + destruct Hnext as ([c ->] & _). unfold_form. simpl in H.
      repeat case_match; simplify_eq/=; auto.
  - destruct mnt; [|discriminate].
    destruct (handlePayment _ _ _ _ _ _) as [[st' f'] ok] eqn:Hpay.
    apply handlePayment_cases in Hpay; [|reflexivity].
    inversion H; subst; clear H.
    destruct Hpay as [(_ & -> & _) | [(_ & _ & _ & (msg & -> & _) & _)
                                     | (_ & _ & _ & -> & _)]];
      simpl; auto.
  - unfold_form. simpl in H. destruct mnt; inversion H; subst; simpl; auto.
  - inversion H; subst; simpl; auto.
  - destruct (Dashboard.bookings dash !! id); [|discriminate].
    destruct (bool_decide _); inversion H; subst; simpl; auto.
  - inversion H; subst; simpl; auto.
  - destruct (Store.bookings st !! id); [discriminate|].
    destruct (bool_decide _); inversion H; subst; simpl; auto.
Qed.

Lemma mount_snapshot (st : Store.t) (therapist : positive) (data : BookingData.t)
    (user : positive) (latency : Z) (reply : InsertReply) :
  snapshot_inv data (mount st therapist data user latency reply).
Proof.
  unfold snapshot_inv, mount, createBookingRequest. unfold_form. simpl.
  destruct (booking_row user data 0); simpl; split; try reflexivity;
    intros id; discriminate.
Qed.

Lemma exec_snapshot (data : BookingData.t) (e : Event) (s s' : System) :
  snapshot_inv data s -> exec e s = Some s' -> snapshot_inv data s'.
Proof.
  intros [Hdata Hrow] He.
  destruct (exec_bookingId e s s' He) as [Hd Hb].
  pose proof (exec_same_rows e s s' He) as Hsame.
  split; [congruence|].
  intros id Hid.
  destruct Hb as [Hb | (id' & amount & row & Hid' & Hamount & Hbuilt & Hstored)].
  - rewrite Hb in Hid.
    destruct (Hrow id Hid) as (b & Hlook & Hprice & Hrest).
    destruct (Hsame id b Hlook) as (st' & Hst' & _).
    exists (Booking.with_status st' b). split; [exact Hst' | exact (conj Hprice Hrest)].
  - rewrite Hid' in Hid. injection Hid as <-.
    rewrite Hdata in Hamount, Hbuilt.
    destruct (booking_row_fields _ _ _ _ Hbuilt) as (Hp & Hrest).
    exists row. rewrite Hp. auto.
Qed.

Lemma run_snapshot (data : BookingData.t) (es : list Event) (s s' : System) :
  snapshot_inv data s -> run es s = Some s' -> snapshot_inv data s'.
Proof.
  revert s. induction es as [|e es IH]; intros s Hs H; simpl in H.
  - now inversion H; subst.
  - destruct (exec e s) as [s1|] eqn:He; [|discriminate].
    eapply IH; [eapply exec_snapshot|]; eassumption.
Qed.

End Snapshot.

(** C6. The price of a request is the one [calculatePrice] gave for the
    service and the duration of the booking (as a [DECIMAL(10, 2)]); it
    is stored with the row when the request is created, and whatever
    happens afterwards (responses of the therapist, payments, edits of
    the catalogue, other requests, the passing of time) the row is still
    there at the same price. *)
Theorem price_is_a_snapshot :
  (forall (es : list StepSubmit) (st : Store.t) (therapist user : positive)
          (latency : Z) (reply : InsertReply) (evs : list Event) (s : System)
          (id : positive),
      run evs (mount st therapist (wizard es) user latency reply) = Some s ->
      PaymentForm.bookingId (form s) = Some id ->
      exists b : Booking.t,
        Store.bookings (store s) !! id = Some b
        /\ decimal_10_2 (calculatePrice (BookingData.service (wizard es))
                                        (BookingData.duration (wizard es)))
           = Some (Booking.price b)
        /\ Booking.duration b = BookingData.duration (wizard es)
        /\ Service.id <$> BookingData.service (wizard es) = Some (Booking.service_id b))
  /\ (forall (evs : list Event) (s s' : System) (id : positive) (b : Booking.t),
         run evs s = Some s' ->
         Store.bookings (store s) !! id = Some b ->
         exists b' : Booking.t,
           Store.bookings (store s') !! id = Some b'
           /\ Booking.price b' = Booking.price b).
Proof.
  split.
  - intros es st therapist user latency reply evs s id Hrun Hid.
    pose proof (run_snapshot _ _ _ _ (mount_snapshot st therapist (wizard es) user
                                        latency reply) Hrun) as [_ Hrow].
    destruct (wizard_invariant es) as (Hprice & _).
    rewrite <- Hprice. now apply Hrow.
  - intros evs s s' id b Hrun Hb.
    destruct (run_same_rows evs s s' Hrun id b Hb) as (st' & Hst' & _).
    eexists. split; [exact Hst' | reflexivity].
Qed.

Lemma price_is_a_snapshot_witness :
  (exists b : Booking.t,
      Store.bookings
        (store (Example.final
                  (repeat Fire 7 ++
                   [Fetch true; Click 1 Dashboard.Decline Written;
                    CatalogueEdit []; Pay true Example.card_accepted Written None])
                  (Example.system 200))) !! 1%positive = Some b
      /\ decimal_10_2 (calculatePrice (BookingData.service Example.data)
                                     (BookingData.duration Example.data))
         = Some (Booking.price b)
      /\ Booking.duration b = BookingData.duration Example.data
      /\ Service.id <$> BookingData.service Example.data = Some (Booking.service_id b))
  /\ (exists b' : Booking.t,
         Store.bookings
           (store (Example.final
                     [Fetch true; Click 1 Dashboard.Accept Written; CatalogueEdit []]
                     (Example.final [Fire] (Example.system 200)))) !! 1%positive
         = Some b'
         /\ Booking.price b' = 160%Q).
Proof.
  destruct price_is_a_snapshot as [Hcreated Hkept].
  split.
  - apply (Hcreated
             [SubmitAddress "1 George St" (-33 # 1) (151 # 1);
              SubmitService (Some 0%nat) (Some 2%nat);
              SubmitDateTime "2025-03-01" "09:30";
              SubmitTherapist Example.therapist;
              SubmitDetails "street" "upstairs"]
             Example.empty_store 7%positive Example.customer 200 (Inserted 1)
             (repeat Fire 7 ++
              [Fetch true; Click 1 Dashboard.Decline Written;
               CatalogueEdit []; Pay true Example.card_accepted Written None]));
      vm_compute; reflexivity.
  - apply (Hkept [Fetch true; Click 1 Dashboard.Accept Written; CatalogueEdit []]
             (Example.final [Fire] (Example.system 200))
             (Example.final
                [Fetch true; Click 1 Dashboard.Accept Written; CatalogueEdit []]
                (Example.final [Fire] (Example.system 200)))
             1%positive
             (Booking.mk 3 7 1 120 "2025-03-01" "09:30" "1 George St"
                (Some (-33 # 1)%Q) (Some (151 # 1)%Q) "street" "upstairs" 160
                requested));
      vm_compute; reflexivity.
Defined.

(** ** The clock, the countdown and the pending callbacks *)

Section Timing.
Variable latency : Z.
Hypothesis latency_nonneg : 0 <= latency.

Lemma mount_timing (st : Store.t) (therapist : positive) (data : BookingData.t)
    (user : positive) (reply : InsertReply) :
  timing_inv latency (mount st therapist data user latency reply).
Proof.
  unfold timing_inv, mount, createBookingRequest. simpl.
  destruct (booking_row user data 0); unfold_form;
    repeat split; try lia; try discriminate; try congruence.
Qed.

Lemma exec_timing (e : Event) (s s' : System) :
  timing_inv latency s -> exec e s = Some s' -> timing_inv latency s'.
Proof.
  destruct s as [t stp st [data user proc err bid rs tr mnt ins resp cd] dash].
  unfold timing_inv.
  destruct e as [t' | | stripe method update insert | | ok | id button reply
                | services | id row]; simpl; intros Inv H.
  - destruct (t <=? t') eqn:Ht; [|discriminate]. apply Z.leb_le in Ht.
    simpl in H.
    destruct (next_task _) as [[task due]|] eqn:Hnext.
    + destruct (Z.ltb_spec t' due); [|discriminate].
      apply next_task_spec in Hnext. simpl in Hnext.
      inversion H; subst; clear H. simpl.
      destruct task, ins as [[di ri]|], resp as [dr|], cd as [[dc c]|];
        destruct rs, bid; try destruct Hnext as ([? ?] & ? & ?); inv_tac.
    + apply next_task_none in Hnext. simpl in Hnext.
      destruct Hnext as (-> & -> & ->).
      inversion H; subst; clear H. destruct rs, bid; inv_tac.
  - destruct (next_task _) as [[task due]|] eqn:Hnext; [|discriminate].
    apply next_task_spec in Hnext. simpl in Hnext.
    inversion H; subst; clear H.
    destruct task; simpl.
    + destruct Hnext as ([reply ->] & Hr & Hc). simpl.
      unfold createBookingRequest_resumed. simpl.
      destruct reply as [id|msg]; simpl;
        [destruct (decimal_10_2 _ ≫= _) as [row|]; simpl;
         [destruct (Store.bookings st !! id)|]|];
        unfold_form; destruct mnt; simpl;
        destruct resp as [dr|], cd as [[dc c]|]; destruct rs, bid; inv_tac.
    + destruct Hnext as (-> & Hi & Hc). unfold_form.
      destruct mnt; simpl; [destruct rs; simpl|];
        rewrite ?andb_false_r;
        destruct ins as [[di ri]|], cd as [[dc c]|]; try destruct rs; destruct bid; inv_tac.
    + destruct Hnext as ([c ->] & Hi & Hr). unfold_form.
      destruct Inv as (H0 & Htr & (-> & -> & -> & Hc1 & -> & Hnow) & Hrest).
      simpl.
      destruct (Z.eqb_spec tr (tr - 1)); [lia|]. simpl.
      destruct (Z.ltb_spec 0 (tr - 1)); simpl.
      * destruct ins as [[di ri]|], resp as [dr|]; destruct bid; inv_tac.
      * destruct (Z.eqb_spec (tr - 1) 0); [|lia]. simpl.
        destruct ins as [[di ri]|], resp as [dr|]; destruct bid; inv_tac.
  - destruct mnt; [|discriminate].
    destruct (handlePayment _ _ _ _ _ _) as [[st' f'] ok] eqn:Hpay.
    apply handlePayment_cases in Hpay; [|reflexivity].
    inversion H; subst; clear H.
    destruct Hpay as [(_ & -> & _) | [(_ & _ & _ & (msg & -> & _) & _)
                                     | (_ & _ & Hacc & -> & _)]];
      simpl in *; [exact Inv | exact Inv |].
    subst rs. destruct ins as [[di ri]|], resp as [dr|], cd as [[dc c]|]; destruct bid; inv_tac.
  - unfold_form. destruct mnt; [|discriminate]. inversion H; subst; clear H.
    simpl. destruct ins as [[di ri]|], resp as [dr|], cd as [[dc c]|]; destruct rs, bid; inv_tac.
  - inversion H; subst; exact Inv.
  - destruct (Dashboard.bookings dash !! id); [|discriminate].
    destruct (bool_decide _); inversion H; subst; exact Inv.
  - inversion H; subst; exact Inv.
  - destruct (Store.bookings st !! id); [discriminate|].
    destruct (bool_decide _); inversion H; subst; exact Inv.
Qed.

Lemma run_timing (es : list Event) (s s' : System) :
  timing_inv latency s -> run es s = Some s' -> timing_inv latency s'.
Proof.
  revert s. induction es as [|e es IH]; intros s Hs H; simpl in H.
  - now inversion H; subst.
  - destruct (exec e s) as [s1|] eqn:He; [|discriminate].
    eapply IH; [eapply exec_timing|]; eassumption.
Qed.

End Timing.

Section Lifecycle.
Variable latency : Z.
Hypothesis latency_nonneg : 0 <= latency.

Lemma exec_lifecycle (e : Event) (s s' : System) :
  timing_inv latency s -> exec e s = Some s' ->
  now s <= now s'
  /\ PaymentForm.timeRemaining (form s') <= PaymentForm.timeRemaining (form s)
  /\ (PaymentForm.requestStatus (form s) <> pending ->
      PaymentForm.requestStatus (form s') <> pending)
  /\ (PaymentForm.requestStatus (form s') = timeout ->
      PaymentForm.requestStatus (form s) <> timeout ->
      e = Fire /\ PaymentForm.requestStatus (form s) = pending
      /\ now s' = 120000 /\ store s' = store s)
  /\ (PaymentForm.requestStatus (form s') = accepted ->
      PaymentForm.requestStatus (form s) <> accepted ->
      e = Fire /\ next_task (form s) = Some (ResponseTimer, latency + 5000)
      /\ store s' = store s).
Proof.
  destruct s as [t stp st [data user proc err bid rs tr mnt ins resp cd] dash].
  unfold timing_inv.
  destruct e as [t' | | stripe method update insert | | ok | id button reply
                | services | id row]; simpl; intros Inv H.
  - destruct (t <=? t') eqn:Ht; [|discriminate]. apply Z.leb_le in Ht.
    simpl in H. destruct (match next_task _ with Some _ => _ | None => _ end);
      inversion H; subst; clear H. destruct rs; inv_tac.
  - destruct (next_task _) as [[task due]|] eqn:Hnext; [|discriminate].
    pose proof Hnext as Hspec.
    apply next_task_spec in Hspec. simpl in Hspec.
    inversion H; subst; clear H.
    destruct task; simpl.
    + destruct Hspec as ([reply ->] & Hr & Hc). simpl. clear Hnext.
      unfold createBookingRequest_resumed. simpl.
      destruct reply as [id|msg]; simpl;
        [destruct (decimal_10_2 _ ≫= _) as [row|]; simpl;
         [destruct (Store.bookings st !! id)|]|];
        unfold_form; destruct mnt; simpl; destruct rs; inv_tac.
    + destruct Hspec as (-> & Hi & Hc). unfold_form.
      destruct mnt; simpl; [destruct rs; simpl|];
        rewrite ?andb_false_r;
        destruct ins as [[di ri]|], cd as [[dc c]|]; try destruct rs; inv_tac.
    + destruct Hspec as ([c ->] & Hi & Hr). unfold_form. clear Hnext.
      destruct Inv as (H0 & Htr & (-> & -> & -> & Hc1 & -> & Hnow) & Hrest).
      simpl.
      destruct (Z.eqb_spec tr (tr - 1)); [lia|]. simpl.
      destruct (Z.ltb_spec 0 (tr - 1)); simpl.
      * inv_tac.
      * destruct (Z.eqb_spec (tr - 1) 0); [|lia]. simpl. inv_tac.
  - destruct mnt; [|discriminate].
    destruct (handlePayment _ _ _ _ _ _) as [[st' f'] ok] eqn:Hpay.
    apply handlePayment_cases in Hpay; [|reflexivity].
    inversion H; subst; clear H.
    destruct Hpay as [(_ & -> & _) | [(_ & _ & _ & (msg & -> & _) & _)
                                     | (_ & _ & Hacc & -> & _)]];
      simpl in *; destruct rs; inv_tac.
  - unfold_form. destruct mnt; [|discriminate]. inversion H; subst; clear H.
    simpl. destruct rs; inv_tac.
  - inversion H; subst. destruct rs; inv_tac.
  - destruct (Dashboard.bookings dash !! id); [|discriminate].
    destruct (bool_decide _); inversion H; subst. destruct rs; inv_tac.
  - inversion H; subst; destruct rs; inv_tac.
  - destruct (Store.bookings st !! id); [discriminate|].
    destruct (bool_decide _); inversion H; subst; destruct rs; inv_tac.
Qed.

(** In a settled state every pending callback is due later. *)
Lemma settled_spec (s : System) :
  settled s = true ->
  match PaymentForm.insertRequest (form s) with
  | Some (d, _) => now s < d | None => True end
  /\ match PaymentForm.responseTimer (form s) with
     | Some d => now s < d | None => True end
  /\ match PaymentForm.countdownTimer (form s) with
     | Some (d, _) => now s < d | None => True end.
Proof.
  unfold settled.
  destruct (next_task (form s)) as [[task due]|] eqn:Hnext.
  - intros Hlt. apply Z.ltb_lt in Hlt.
    apply next_task_spec in Hnext.
    destruct task, (PaymentForm.insertRequest (form s)) as [[di ri]|],
      (PaymentForm.responseTimer (form s)) as [dr|],
      (PaymentForm.countdownTimer (form s)) as [[dc c]|];
      simpl in *; try destruct Hnext as ([? ?] & ? & ?);
      try destruct Hnext as (? & ? & ?); simplify_eq; repeat split; lia.
  - intros _. apply next_task_none in Hnext. destruct Hnext as (-> & -> & ->).
    auto.
Qed.

End Lifecycle.

(** ** The countdown *)

Lemma countdown_value (latency : Z) (s : System) :
  timing_inv latency s ->
  PaymentForm.mounted (form s) = true ->
  PaymentForm.requestStatus (form s) = pending ->
  settled s = true ->
  1 <= PaymentForm.timeRemaining (form s)
  /\ PaymentForm.timeRemaining (form s) = 120 - now s / 1000.
Proof.
  intros (_ & _ & Hcd & _) Hm Hp Hs.
  apply settled_spec in Hs. destruct Hs as (_ & _ & Hlt).
  destruct (PaymentForm.countdownTimer (form s)) as [[due c]|]; [|now elim Hcd].
  destruct Hcd as (-> & _ & _ & H1 & -> & Hlo & _).
  split; [exact H1|].
  assert (now s / 1000 = 120 - PaymentForm.timeRemaining (form s)) as ->; [|lia].
  symmetry.
  apply Z.div_unique with (r := now s - (120 - PaymentForm.timeRemaining (form s)) * 1000);
    lia.
Qed.

(** C7. The seconds the form shows are never negative and never more
    than 120, no event makes them grow, and while the form is on the
    page and pending they are [max 0 (120 - now)], [now] in whole seconds
    since the countdown started; after a timeout they are 0. *)
Theorem timeRemaining_counts_down
    (st : Store.t) (therapist user : positive) (data : BookingData.t)
    (latency : Z) (reply : InsertReply) (es : list Event) (s : System) :
  0 <= latency ->
  run es (mount st therapist data user latency reply) = Some s ->
  0 <= PaymentForm.timeRemaining (form s) <= 120
  /\ (forall (e : Event) (s' : System),
         exec e s = Some s' ->
         PaymentForm.timeRemaining (form s') <= PaymentForm.timeRemaining (form s))
  /\ (PaymentForm.mounted (form s) = true ->
      PaymentForm.requestStatus (form s) = pending ->
      settled s = true ->
      PaymentForm.timeRemaining (form s) = Z.max 0 (120 - now s / 1000))
  /\ (PaymentForm.requestStatus (form s) = timeout ->
      PaymentForm.timeRemaining (form s) = 0).
Proof.
  intros HL Hrun.
  pose proof (run_timing latency HL es _ s
                (mount_timing latency HL st therapist data user reply) Hrun) as Inv.
  split; [apply Inv | split; [|split]].
  - intros e s' He. now apply (exec_lifecycle latency e s s' Inv He).
  - intros Hm Hp Hs.
    destruct (countdown_value latency s Inv Hm Hp Hs) as [H1 H2]. lia.
  - intros Ht. now apply Inv.
Qed.

Lemma timeRemaining_counts_down_witness :
  PaymentForm.timeRemaining
    (form (Example.final [Fire; Fire; Fire; Wait 2500] (Example.system 200)))
  = Z.max 0 (120 - 2500 / 1000).
Proof.
  apply (timeRemaining_counts_down Example.empty_store 7 Example.customer
           Example.data 200 (Inserted 1) [Fire; Fire; Fire; Wait 2500]
           (Example.final [Fire; Fire; Fire; Wait 2500] (Example.system 200)));
    [lia | reflexivity | reflexivity | reflexivity | reflexivity].
Defined.

(** C5, as stated, fails.  The insert is answered after 116 s; the
    countdown reaches 0 at 120 s and the form shows a timeout, the stored
    row still being ['requested'].  The therapist accepts half a second
    later: the row becomes ['confirmed'], and at 121 s the simulated
    response turns the form to ['accepted'].  Nothing is ignored as
    stale. *)
Lemma accept_after_timeout_is_applied :
  (fun s => (now s, PaymentForm.requestStatus (form s), Example.stored_status s))
    <$> run (repeat Fire 121) (Example.system 116000)
  = Some (120000, timeout, Some requested)
  /\ (fun s => (now s, PaymentForm.requestStatus (form s), Example.stored_status s))
       <$> run (repeat Fire 121 ++
                [Fetch true; Wait 120500; Click 1 Dashboard.Accept Written])
               (Example.system 116000)
     = Some (120500, timeout, Some confirmed)
  /\ (fun s => (now s, PaymentForm.requestStatus (form s), Example.stored_status s))
       <$> run (repeat Fire 121 ++
                [Fetch true; Wait 120500; Click 1 Dashboard.Accept Written; Fire])
               (Example.system 116000)
     = Some (121000, accepted, Some confirmed).
Proof. repeat split; vm_compute; reflexivity. Qed.

(** C5, amended.  The countdown starts at 120 when the form mounts and
    calls [createBookingRequest].  If the form is still pending when the
    last second elapses, 120 s after mounting, its status becomes
    ['timeout']: at that instant and not before, from ['pending'] only,
    with [timeRemaining] at 0 and without a write to the store.  It
    happens at most once: a status that has left ['pending'] never
    returns to it, and after a timeout no countdown timer is armed. *)
Theorem countdown_times_out_after_120_seconds
    (st : Store.t) (therapist user : positive) (data : BookingData.t)
    (latency : Z) (reply : InsertReply) (es : list Event) (s : System) :
  0 <= latency ->
  run es (mount st therapist data user latency reply) = Some s ->
  (now (mount st therapist data user latency reply) = 0
   /\ PaymentForm.timeRemaining (form (mount st therapist data user latency reply)) = 120)
  /\ (PaymentForm.mounted (form s) = true ->
      settled s = true ->
      120000 <= now s ->
      PaymentForm.requestStatus (form s) <> pending)
  /\ (PaymentForm.mounted (form s) = true ->
      PaymentForm.requestStatus (form s) = pending ->
      next_task (form s) = Some (CountdownTimer, 120000) ->
      exists s', exec Fire s = Some s'
                 /\ PaymentForm.requestStatus (form s') = timeout)
  /\ (forall (e : Event) (s' : System),
         exec e s = Some s' ->
         PaymentForm.requestStatus (form s') = timeout ->
         PaymentForm.requestStatus (form s) <> timeout ->
         e = Fire
         /\ PaymentForm.requestStatus (form s) = pending
         /\ now s' = 120000
         /\ PaymentForm.timeRemaining (form s') = 0
         /\ store s' = store s)
  /\ (forall (e : Event) (s' : System),
         exec e s = Some s' ->
         PaymentForm.requestStatus (form s) <> pending ->
         PaymentForm.requestStatus (form s') <> pending)
  /\ (PaymentForm.requestStatus (form s) = timeout ->
      PaymentForm.countdownTimer (form s) = None).
Proof.
  intros HL Hrun.
  pose proof (run_timing latency HL es _ s
                (mount_timing latency HL st therapist data user reply) Hrun) as Inv.
  split; [|split; [|split; [|split; [|split]]]].
  - unfold mount, createBookingRequest. simpl.
    destruct (booking_row user data 0); split; reflexivity.
  - intros Hm Hs Hnow Hp.
    destruct (countdown_value latency s Inv Hm Hp Hs) as [H1 H2].
    assert (120 <= now s / 1000) by (apply Z.div_le_lower_bound; lia). lia.
  - intros Hm Hp Hnext.
    unfold exec. rewrite Hnext.
    apply next_task_spec in Hnext. destruct Hnext as ([c Hc] & _).
    destruct Inv as (_ & _ & Hcd & _). rewrite Hc in Hcd.
    destruct Hcd as (Hctr & _ & _ & _ & Hdue & _).
    assert (c = 1) by lia. subst c.
    eexists. split; [reflexivity|].
    destruct s as [t stp st0 [d u proc err bid rs tr mnt ins resp cd] dash].
    simpl in *. subst. unfold_form. reflexivity.
  - intros e s' He Ht Hnt.
    destruct (exec_lifecycle latency e s s' Inv He) as (_ & _ & _ & Hto & _).
    destruct (Hto Ht Hnt) as (-> & Hp & Hn & Hst).
    repeat split; try assumption.
    now apply (exec_timing latency HL Fire s s' Inv He).
  - intros e s' He. now apply (exec_lifecycle latency e s s' Inv He).
  - intros Ht. destruct Inv as (_ & _ & Hcd & _).
    destruct (PaymentForm.countdownTimer (form s)) as [[due c]|]; [|reflexivity].
    destruct Hcd as (_ & _ & Hp & _). congruence.
Qed.

Lemma countdown_times_out_after_120_seconds_witness :
  PaymentForm.requestStatus
    (form (Example.final (repeat Fire 121 ++ [Wait 120500])
             (mount Example.empty_store 7 Example.data Example.customer 1000
                (InsertRefused "offline"))))
  <> pending.
Proof.
  refine (proj1 (proj2 (countdown_times_out_after_120_seconds Example.empty_store 7
                          Example.customer Example.data 1000 (InsertRefused "offline")
                          (repeat Fire 121 ++ [Wait 120500])
                          (Example.final (repeat Fire 121 ++ [Wait 120500])
                             (mount Example.empty_store 7 Example.data Example.customer
                                1000 (InsertRefused "offline")))
                          _ _)) _ _ _).
  - lia.
  - vm_compute; reflexivity.
  - vm_compute; reflexivity.
  - vm_compute; reflexivity.
  - vm_compute; discriminate.
Defined.

(** ** The simulated response *)




(** ** Responses of the therapist *)

(** C1, as stated, fails.  The dashboard lists request 1 as
    ['requested']; the therapist presses Accept and, before the list is
    fetched again, Decline: the second response is applied to the stored
    row, which goes from ['confirmed'] to ['declined']. *)
Lemma second_response_overwrites_first :
  Example.stored_status
    <$> run [Fire; Fetch true; Click 1 Dashboard.Accept Written] (Example.system 200)
  = Some (Some confirmed)
  /\ Example.stored_status
       <$> run [Fire; Fetch true; Click 1 Dashboard.Accept Written;
                Click 1 Dashboard.Decline Written] (Example.system 200)
     = Some (Some declined).
Proof. split; vm_compute; reflexivity. Qed.

(** C1, amended.  A response of the therapist is an unconditional write,
    not a compare-and-set: when the store applies the update of
    [handleBookingResponse], the stored status of the request is the
    response, whatever it was before, and no other row is touched; when
    the store does not apply it, nothing changes; in neither case is
    something raised or a stale transition reported.  The guard is in
    the dashboard: Accept and Decline are rendered, and can be pressed,
    only for a request whose last fetched status is ['requested']; and a
    stored status that has left ['requested'] never returns to it. *)
Theorem response_is_an_unconditional_write :
  (forall (id : positive) (response : string) (st : Store.t)
          (v : BookingStatus) (b : Booking.t),
      status_of_string response = Some v ->
      Store.bookings st !! id = Some b ->
      Store.bookings (handleBookingResponse id response Written st).1 !! id
      = Some (Booking.with_status v b))
  /\ (forall (id j : positive) (response : string) (reply : UpdateReply) (st : Store.t),
         j <> id ->
         Store.bookings (handleBookingResponse id response reply st).1 !! j
         = Store.bookings st !! j)
  /\ (forall (id : positive) (response : string) (reply : UpdateReply) (st : Store.t),
         reply <> Written ->
         (handleBookingResponse id response reply st).1 = st)
  /\ (forall (b : Booking.t) (button : Dashboard.Button),
         button ∈ Dashboard.buttons b <-> Booking.status b = requested)
  /\ (forall (id : positive) (button : Dashboard.Button) (reply : UpdateReply)
             (s s' : System),
         exec (Click id button reply) s = Some s' ->
         exists b, Dashboard.bookings (dashboard s) !! id = Some b
                   /\ Booking.status b = requested)
  /\ (forall (es : list Event) (s s' : System) (id : positive) (b b' : Booking.t),
         run es s = Some s' ->
         Store.bookings (store s) !! id = Some b ->
         Store.bookings (store s') !! id = Some b' ->
         Booking.status b <> requested ->
         Booking.status b' <> requested).
Proof.
  split; [|split; [|split; [|split; [|split]]]].
  - intros id response st v b Hv Hb.
    unfold handleBookingResponse, update_status. rewrite Hv. simpl.
    now rewrite lookup_alter_eq, Hb.
  - intros id j response reply st Hj.
    unfold handleBookingResponse, update_status.
    destruct reply; simpl; try reflexivity.
    destruct (status_of_string response); simpl; [|reflexivity].
    now rewrite lookup_alter_ne by congruence.
  - intros id response reply st Hr.
    unfold handleBookingResponse, update_status.
    destruct reply; [contradiction | |]; now destruct st.
  - intros b button. unfold Dashboard.buttons.
    case_bool_decide as Hb; split; intros H; try assumption.
    + destruct button; set_solver.
    + inversion H.
    + contradiction.
  - intros id button reply s s' He. simpl in He.
    destruct (Dashboard.bookings (dashboard s) !! id) as [b|]; [|discriminate].
    case_bool_decide as Hin; [|discriminate].
    exists b. split; [reflexivity|].
    unfold Dashboard.buttons in Hin.
    case_bool_decide as Hb; [assumption | inversion Hin].
  - intros es s s' id b b' Hrun Hb Hb' Hnot Hreq.
    destruct (run_same_rows es s s' Hrun id b Hb) as (st' & Hst' & Hmono).
    rewrite Hb' in Hst'. injection Hst' as ->.
    apply Hnot, Hmono. exact Hreq.
Qed.

Lemma response_is_an_unconditional_write_witness :
  Store.bookings
    (handleBookingResponse 1 "declined" Written
       (store (Example.final [Fire; Fetch true; Click 1 Dashboard.Accept Written]
                 (Example.system 200)))).1 !! 1%positive
  = Some (Booking.mk 3 7 1 120 "2025-03-01" "09:30" "1 George St"
            (Some (-33 # 1)%Q) (Some (151 # 1)%Q) "street" "upstairs" 160 declined)
  /\ Booking.status
       (Booking.mk 3 7 1 120 "2025-03-01" "09:30" "1 George St"
          (Some (-33 # 1)%Q) (Some (151 # 1)%Q) "street" "upstairs" 160 confirmed)
     <> requested.
Proof.
  destruct response_is_an_unconditional_write as (Hwrite & _ & _ & _ & _ & Hleft).
  split.
  - apply (Hwrite 1%positive "declined"%string _ declined
             (Booking.mk 3 7 1 120 "2025-03-01" "09:30" "1 George St"
                (Some (-33 # 1)%Q) (Some (151 # 1)%Q) "street" "upstairs" 160 confirmed));
      vm_compute; reflexivity.
  - apply (Hleft [Wait 900; Fetch true; CatalogueEdit []]
             (Example.final [Fire; Fetch true; Click 1 Dashboard.Accept Written]
                (Example.system 200))
             (Example.final [Fire; Fetch true; Click 1 Dashboard.Accept Written; Wait 900;
                             Fetch true; CatalogueEdit []]
                (Example.system 200))
             1%positive
             (Booking.mk 3 7 1 120 "2025-03-01" "09:30" "1 George St"
                (Some (-33 # 1)%Q) (Some (151 # 1)%Q) "street" "upstairs" 160 confirmed));
      first [vm_compute; reflexivity | discriminate].
Defined.

(** C2, as stated, fails.  The therapist accepts request 1 while the
    customer's form is still pending: the stored status is ['confirmed']
    at once, with no payment made. *)
Lemma accept_confirms_before_payment :
  (fun s => (Example.stored_status s, PaymentForm.requestStatus (form s),
             Store.payments (store s)))
    <$> run [Fire; Fetch true; Click 1 Dashboard.Accept Written] (Example.system 200)
  = Some (Some confirmed, pending, []).
Proof. vm_compute; reflexivity. Qed.

(** C2, amended.  When the therapist accepts a request, the update of
    [handleBookingResponse], once applied, makes the stored status
    ['confirmed'] directly, and leaves the customer's form as it is; the
    column has no ['accepted'] value.  ['accepted'] is a status of the
    customer's form: [handlePayment] does nothing in any other status,
    succeeds only in that one, and when it succeeds with its update
    applied the stored status of the request of the form is
    ['confirmed'] (again). *)
Theorem accept_writes_confirmed :
  status_of_string "accepted" = None
  /\ (forall (id : positive) (s s' : System) (b : Booking.t),
         exec (Click id Dashboard.Accept Written) s = Some s' ->
         Store.bookings (store s) !! id = Some b ->
         Store.bookings (store s') !! id = Some (Booking.with_status confirmed b)
         /\ form s' = form s)
  /\ (forall (stripe : bool) (method : string + string) (update : UpdateReply)
             (insert : option string) (st : Store.t) (f : PaymentForm.t),
         PaymentForm.requestStatus f <> accepted ->
         handlePayment stripe method update insert st f = (st, f, false))
  /\ (forall (stripe : bool) (method : string + string) (insert : option string)
             (st st' : Store.t) (f f' : PaymentForm.t) (id : positive) (b : Booking.t),
         PaymentForm.mounted f = true ->
         handlePayment stripe method Written insert st f = (st', f', true) ->
         PaymentForm.bookingId f = Some id ->
         Store.bookings st !! id = Some b ->
         PaymentForm.requestStatus f = accepted
         /\ Store.bookings st' !! id = Some (Booking.with_status confirmed b)).
Proof.
  split; [reflexivity | split; [|split]].
  - intros id s s' b He Hb. simpl in He.
    destruct (Dashboard.bookings (dashboard s) !! id) as [b0|]; [|discriminate].
    destruct (bool_decide _); [|discriminate].
    injection He as <-. simpl.
    now rewrite lookup_alter_eq, Hb.
  - intros stripe method update insert st f Hna. unfold handlePayment.
    case_bool_decide; [contradiction|].
    now rewrite orb_true_r.
  - intros stripe method insert st st' f f' id b Hm Hpay Hid Hb.
    apply handlePayment_cases in Hpay; [|exact Hm].
    destruct Hpay as [(Hf & _) | [(Hf & _) | (_ & _ & Hacc & _ & pm & amount & _ & _ & _ & ->)]];
      try discriminate.
    split; [exact Hacc|].
    rewrite Hid. simpl. now rewrite lookup_alter_eq, Hb.
Qed.

Lemma accept_writes_confirmed_witness :
  Example.stored_status
    (Example.final [Fire; Fetch true; Click 1 Dashboard.Accept Written]
       (Example.system 200))
  = Some confirmed
  /\ handlePayment true Example.card_accepted Written None Example.empty_store
       (form (Example.system 200))
     = (Example.empty_store, form (Example.system 200), false)
  /\ Example.stored_status
       (Example.final (repeat Fire 7 ++ [Pay true Example.card_accepted Written None])
          (Example.system 200))
     = Some confirmed.
Proof.
  destruct accept_writes_confirmed as (_ & Hclick & Hidle & Hpay).
  split; [|split].
  - destruct (Hclick 1%positive
               (Example.final [Fire; Fetch true] (Example.system 200))
               (Example.final [Fire; Fetch true; Click 1 Dashboard.Accept Written]
                  (Example.system 200))
               (Booking.mk 3 7 1 120 "2025-03-01" "09:30" "1 George St"
                  (Some (-33 # 1)%Q) (Some (151 # 1)%Q) "street" "upstairs" 160
                  requested)) as [H _];
      [vm_compute; reflexivity | vm_compute; reflexivity |].
    unfold Example.stored_status. now rewrite H.
  - apply Hidle. vm_compute. discriminate.
  - destruct (Hpay true Example.card_accepted None
               (store (Example.final (repeat Fire 7) (Example.system 200)))
               (store (Example.final (repeat Fire 7 ++ [Pay true Example.card_accepted Written None])
                         (Example.system 200)))
               (form (Example.final (repeat Fire 7) (Example.system 200)))
               (form (Example.final (repeat Fire 7 ++ [Pay true Example.card_accepted Written None])
                        (Example.system 200)))
               1%positive
               (Booking.mk 3 7 1 120 "2025-03-01" "09:30" "1 George St"
                  (Some (-33 # 1)%Q) (Some (151 # 1)%Q) "street" "upstairs" 160
                  requested)) as [_ H];
      [vm_compute; reflexivity .. |].
    unfold Example.stored_status. now rewrite H.
Defined.

(** ** Payment *)

(** C8, as stated, fails.  The card of the accepted request 1 is
    declined: the form shows the message, stays ['accepted'] with its pay
    button enabled, and the stored status stays ['requested'].  The
    customer pays again, on the same request, and the payment goes
    through. *)
Lemma payment_is_retried_on_the_same_request :
  (fun s => (PaymentForm.requestStatus (form s), PaymentForm.error (form s),
             PaymentForm.pay_disabled true (form s), PaymentForm.bookingId (form s),
             Example.stored_status s, step s))
    <$> run (repeat Fire 7 ++ [Pay true Example.card_declined Written None])
            (Example.system 200)
  = Some (accepted, "Your card was declined."%string, false, Some 1%positive,
          Some requested, 6)
  /\ (fun s => (Example.stored_status s, step s,
                Payment.booking_id <$> Store.payments (store s)))
       <$> run (repeat Fire 7 ++ [Pay true Example.card_declined Written None;
                                  Pay true Example.card_accepted Written None])
               (Example.system 200)
     = Some (Some confirmed, 7, [Some 1%positive]).
Proof. split; vm_compute; reflexivity. Qed.

(** C8, amended.  A payment failure is not terminal and is not recorded
    on the request.  When [handlePayment] fails on an accepted request,
    the form shows the message of the error and stops processing; it
    stays on the page, ['accepted'], with the same [bookingId], so that
    its pay button is enabled again and the payment can be repeated on
    the same request.  The rows of the store keep everything but,
    possibly, their status; when it is [createPaymentMethod] that fails
    the store is untouched.  The status column has no ['payment_failed']
    value. *)
Theorem payment_failure_is_not_terminal :
  status_of_string "payment_failed" = None
  /\ (forall (method : string + string) (update : UpdateReply) (insert : option string)
             (st st' : Store.t) (f f' : PaymentForm.t),
         PaymentForm.mounted f = true ->
         PaymentForm.requestStatus f = accepted ->
         handlePayment true method update insert st f = (st', f', false) ->
         PaymentForm.requestStatus f' = accepted
         /\ PaymentForm.mounted f' = true
         /\ PaymentForm.processing f' = false
         /\ PaymentForm.bookingId f' = PaymentForm.bookingId f
         /\ PaymentForm.pay_disabled true f' = false
         /\ same_rows (Store.bookings st) (Store.bookings st')
         /\ (forall stripeError, method = inl stripeError ->
                PaymentForm.error f' = stripeError /\ st' = st)).
Proof.
  split; [reflexivity|].
  intros method update insert st st' f f' Hm Hacc Hpay.
  pose proof (handlePayment_same_rows true method update insert st f) as Hrows.
  rewrite Hpay in Hrows. simpl in Hrows.
  apply handlePayment_cases in Hpay; [|exact Hm].
  destruct Hpay as [(_ & _ & _ & [H | H])
                   | [(_ & _ & _ & (msg & -> & Hst) & _) | (H & _)]];
    [discriminate | contradiction | | discriminate].
  destruct f as [data user proc err bid rs tr mnt ins resp cd].
  simpl in *. subst.
  do 6 (split; [first [reflexivity | assumption]|]).
  exact Hst.
Qed.

Lemma payment_failure_is_not_terminal_witness :
  PaymentForm.pay_disabled true
    (form (Example.final (repeat Fire 7 ++ [Pay true Example.card_declined Written None])
             (Example.system 200)))
  = false.
Proof.
  refine (proj1 (proj2 (proj2 (proj2 (proj2
            (proj2 payment_failure_is_not_terminal
               Example.card_declined Written None
               (store (Example.final (repeat Fire 7) (Example.system 200)))
               (store (Example.final
                         (repeat Fire 7 ++ [Pay true Example.card_declined Written None])
                         (Example.system 200)))
               (form (Example.final (repeat Fire 7) (Example.system 200)))
               (form (Example.final
                        (repeat Fire 7 ++ [Pay true Example.card_declined Written None])
                        (Example.system 200)))
               _ _ _)))))).
  - vm_compute; reflexivity.
  - vm_compute; reflexivity.
  - vm_compute; reflexivity.
Defined.

(** ** Strings of numbers *)

Lemma string_length_app (s t : string) :
  String.length (s +:+ t) = (String.length s + String.length t)%nat.
Proof.
  induction s as [|c s IH]; [reflexivity|].
  change (S (String.length (s +:+ t)) = S (String.length s + String.length t)).
  now rewrite IH.
Qed.

Lemma string_app_inj_tail (s1 s2 t1 t2 : string) :
  (s1 +:+ t1 = s2 +:+ t2)%string -> String.length t1 = String.length t2 ->
  s1 = s2 /\ t1 = t2.
Proof.
  revert s2. induction s1 as [|c s1 IH]; intros [|c2 s2] H Hlen.
  - auto.
  - change (t1 = String c2 (s2 +:+ t2)) in H.
    rewrite H in Hlen. simpl in Hlen. rewrite string_length_app in Hlen. lia.
  - change (String c (s1 +:+ t1) = t2) in H.
    rewrite <- H in Hlen. simpl in Hlen. rewrite string_length_app in Hlen. lia.
  - change (String c (s1 +:+ t1) = String c2 (s2 +:+ t2)) in H.
    injection H as -> H. destruct (IH _ H Hlen) as [-> ->]. auto.
Qed.

(** The two digits of a number below 100. *)
Lemma padStart_two_digits (r : Z) :
  0 <= r < 100 ->
  JSString.padStart 2 "0" (JSString.toString r)
  = String (pretty_N_char (Z.to_N (r / 10)))
      (String (pretty_N_char (Z.to_N (r mod 10))) "").
Proof.
  intros Hr.
  assert (H : exists n : nat, (n < 100)%nat /\ r = Z.of_nat n).
  { exists (Z.to_nat r). lia. }
  destruct H as (n & Hn & ->). clear Hr.
  do 100 (destruct n as [|n]; [vm_compute; reflexivity|]). lia.
Qed.

Lemma padStart_two_length (r : Z) :
  0 <= r < 100 -> String.length (JSString.padStart 2 "0" (JSString.toString r)) = 2%nat.
Proof. intros Hr. now rewrite padStart_two_digits. Qed.

Lemma padStart_two_inj (r1 r2 : Z) :
  0 <= r1 < 100 -> 0 <= r2 < 100 ->
  JSString.padStart 2 "0" (JSString.toString r1)
  = JSString.padStart 2 "0" (JSString.toString r2) ->
  r1 = r2.
Proof.
  intros H1 H2. rewrite !padStart_two_digits by assumption.
  intros [= Ha Hb].
  apply pretty_N_char_inj in Ha, Hb;
    try (apply N2Z.inj_lt; rewrite Z2N.id; [| first [apply Z.div_pos; lia | apply Z.mod_pos_bound; lia]]; simpl;
         first [apply Z.div_lt_upper_bound; lia | apply Z.mod_pos_bound; lia]).
  apply Z2N.inj in Ha, Hb; try (first [apply Z.div_pos; lia | apply Z.mod_pos_bound; lia]).
  rewrite (Z.div_mod r1 10), (Z.div_mod r2 10) by lia. congruence.
Qed.

Lemma formatTime_inj (a b : Z) :
  0 <= a -> 0 <= b -> formatTime a = formatTime b -> a = b.
Proof.
  intros Ha Hb. unfold formatTime.
  rewrite !Z.rem_mod_nonneg by lia.
  intros H.
  assert (Hra : 0 <= a mod 60 < 100) by (pose proof (Z.mod_pos_bound a 60); lia).
  assert (Hrb : 0 <= b mod 60 < 100) by (pose proof (Z.mod_pos_bound b 60); lia).
  apply string_app_inj_tail in H.
  - destruct H as [Hm Hs].
    apply pretty_Z_inj in Hm.
    apply string_app_inj_tail in Hs; [|now rewrite !padStart_two_length].
    destruct Hs as [_ Hs]. apply padStart_two_inj in Hs; try assumption.
    rewrite (Z.div_mod a 60), (Z.div_mod b 60) by lia. congruence.
  - now rewrite !string_length_app, !padStart_two_length.
Qed.

Lemma formatTime_distinguishes_times_aux (a b : Z) :
  0 <= a -> 0 <= b -> (formatTime a = formatTime b <-> a = b).
Proof.
  intros Ha Hb. split; [now apply formatTime_inj | now intros ->].
Qed.



Lemma formatTime_length (seconds : Z) :
  0 <= seconds < 600 -> String.length (formatTime seconds) = 4%nat.
Proof.
  intros Hs. unfold formatTime.
  rewrite Z.rem_mod_nonneg by lia.
  assert (Hr : 0 <= seconds mod 60 < 100) by (pose proof (Z.mod_pos_bound seconds 60); lia).
  rewrite !string_length_app, padStart_two_length by assumption.
  assert (Hm : 0 <= seconds / 60 < 10).
  { split; [apply Z.div_pos; lia | apply Z.div_lt_upper_bound; lia]. }
  assert (H : exists n : nat, (n < 10)%nat /\ seconds / 60 = Z.of_nat n).
  { exists (Z.to_nat (seconds / 60)). lia. }
  destruct H as (n & Hn & ->).
  do 10 (destruct n as [|n]; [reflexivity|]). lia.
Qed.

(** X2. Whatever happens to the payment form, the countdown it shows
    has four characters, one digit of minutes, the colon and two digits
    of seconds: it runs from 2:00 down to 0:00. *)
Theorem countdown_display_has_four_characters
    (st : Store.t) (therapist user : positive) (data : BookingData.t)
    (latency : Z) (reply : InsertReply) (es : list Event) (s : System) :
  0 <= latency ->
  run es (mount st therapist data user latency reply) = Some s ->
  String.length (formatTime (PaymentForm.timeRemaining (form s))) = 4%nat
  /\ (formatTime (PaymentForm.timeRemaining (form s)) = "2:00"%string <->
      PaymentForm.timeRemaining (form s) = 120)
  /\ (formatTime (PaymentForm.timeRemaining (form s)) = "0:00"%string <->
      PaymentForm.timeRemaining (form s) = 0).
Proof.
  intros HL Hrun.
  pose proof (run_timing latency HL es _ s
                (mount_timing latency HL st therapist data user reply) Hrun)
    as (_ & Hrange & _).
  split; [apply formatTime_length; lia | split].
  - apply (formatTime_distinguishes_times_aux (PaymentForm.timeRemaining (form s)) 120); lia.
  - apply (formatTime_distinguishes_times_aux (PaymentForm.timeRemaining (form s)) 0); lia.
Qed.

Lemma countdown_display_has_four_characters_witness :
  String.length
    (formatTime (PaymentForm.timeRemaining
                   (form (Example.final [Fire; Fire; Fire] (Example.system 200)))))
  = 4%nat.
Proof.
  apply (countdown_display_has_four_characters Example.empty_store 7 Example.customer
           Example.data 200 (Inserted 1) [Fire; Fire; Fire]
           (Example.final [Fire; Fire; Fire] (Example.system 200)));
    [lia | reflexivity].
Defined.

Lemma foldl_push_flat_map {A B : Type} (f g : A -> B) (l : list A) (acc : list B) :
  foldl (fun slots x => (slots ++ [f x]) ++ [g x]) acc l
  = acc ++ flat_map (fun x => [f x; g x]) l.
Proof.
  revert acc. induction l as [|x l IH]; intros acc; simpl.
  - now rewrite app_nil_r.
  - rewrite IH, <- !app_assoc. reflexivity.
Qed.

(** X3. [generateTimeSlots] lists exactly the half hours from 08:00 to
    19:30: the 24 strings HH:00 and HH:30 for the hours 8 to 19, each
    once, in ascending order. *)
Theorem generateTimeSlots_spec :
  (forall slot : string,
      In slot generateTimeSlots <->
      exists hour : Z,
        8 <= hour < 20 /\
        (slot = (JSString.padStart 2 "0" (JSString.toString hour) +:+ ":00")%string \/
         slot = (JSString.padStart 2 "0" (JSString.toString hour) +:+ ":30")%string))
  /\ length generateTimeSlots = 24%nat
  /\ NoDup generateTimeSlots
  /\ StronglySorted (fun a b => String.ltb a b = true) generateTimeSlots.
Proof.
  split; [|split; [|split]].
  - intros slot. unfold generateTimeSlots.
    rewrite foldl_push_flat_map, app_nil_l, in_flat_map.
    split.
    + intros (hour & Hh & Hs). exists hour.
      apply list_elem_of_In, elem_of_seqZ in Hh. split; [lia|].
      simpl in Hs. intuition auto.
    + intros (hour & Hh & Hs). exists hour. split.
      * apply list_elem_of_In, elem_of_seqZ. lia.
      * simpl. intuition auto.
  - reflexivity.
  - apply (bool_decide_unpack _). vm_compute. exact I.
  - apply (bool_decide_unpack _). vm_compute. exact I.
Qed.

(** ** The wizard, step by step *)

Lemma flow_inv_initial : flow_inv BookingFlow.initial.
Proof.
  unfold flow_inv, BookingFlow.initial, BookingData.initial.
  cbn [BookingFlow.step BookingFlow.bookingData BookingData.time BookingData.duration
       BookingData.service].
  split; [lia|]. split; [auto|]. split; [right; simpl; tauto|]. split; [discriminate|].
  repeat split; intros; lia.
Qed.

Lemma time_option_is_slot (i : nat) (initial : string) :
  (initial = ""%string \/ In initial generateTimeSlots) ->
  nth i TIME_OPTIONS initial <> ""%string ->
  In (nth i TIME_OPTIONS initial) generateTimeSlots.
Proof.
  intros Hinit Hne.
  destruct (nth_in_or_default i TIME_OPTIONS initial) as [Hin | Hdef].
  - destruct Hin as [Hempty | Hin]; [congruence | exact Hin].
  - rewrite Hdef in *. destruct Hinit; [contradiction | assumption].
Qed.

Ltac flow_simpl :=
  cbn [BookingFlow.step BookingFlow.bookingData BookingData.address BookingData.lat
       BookingData.lon BookingData.service BookingData.duration BookingData.date
       BookingData.time BookingData.therapist BookingData.parking
       BookingData.roomDetails BookingData.price updateBookingData
       AddressStep.handleSubmit ServiceStep.handleSubmit submit_data] in *.

Lemma flow_inv_step (e : FlowEvent) (s s' : BookingFlow.t) :
  flow_inv s -> flow e s = Some s' -> flow_inv s'.
Proof.
  destruct s as [k [a la lo sv d da ti th pa ro pr]].
  unfold flow_inv, flow. flow_simpl.
  intros (Hk & Hti & Hd & Hsv & H3 & H4 & H5) He.
  destruct e as [address r1 r2 | radio chosen | date chosen | radio | parking room | | |].
  - destruct (Z.eqb_spec k 1) as [-> |]; [|discriminate].
    destruct (_ && _); [|discriminate]. injection He as <-. flow_simpl.
    repeat split; try lia; assumption.
  - destruct (Z.eqb_spec k 2) as [-> |]; [|discriminate].
    set (service := match radio with Some i => nth_error SERVICES i | None => sv end) in *.
    set (shown := if d =? 0 then 60 else d) in *.
    set (duration := match chosen with
                     | Some j => nth j DURATION_OPTIONS shown
                     | None => shown
                     end) in *.
    assert (Hshown : In shown DURATION_OPTIONS).
    { subst shown. destruct (Z.eqb_spec d 0); [simpl; tauto|].
      destruct Hd; [contradiction | assumption]. }
    assert (Hduration : In duration DURATION_OPTIONS).
    { subst duration. destruct chosen as [j|]; [|exact Hshown].
      destruct (nth_in_or_default j DURATION_OPTIONS shown) as [H | ->];
        [exact H | exact Hshown]. }
    destruct service as [tier|] eqn:Hservice; [|discriminate].
    injection He as <-. flow_simpl.
    split; [lia|]. split; [assumption|]. split; [auto|]. split.
    { intros tier' [= <-]. subst service.
      destruct radio as [i|]; [now apply nth_error_In in Hservice | now apply Hsv]. }
    split; [intros _; repeat split; [discriminate | assumption]|].
    split; intros; lia.
  - destruct (Z.eqb_spec k 3) as [-> |]; [|discriminate].
    destruct (String.eqb_spec date ""); [discriminate|].
    set (time := match chosen with
                 | Some i => nth i TIME_OPTIONS ti
                 | None => ti
                 end) in *.
    destruct (String.eqb_spec time "") as [|Hne]; [discriminate|].
    injection He as <-. flow_simpl.
    assert (Hslot : In time generateTimeSlots).
    { subst time. destruct chosen as [i|].
      - now apply time_option_is_slot.
      - destruct Hti; [contradiction | assumption]. }
    split; [lia|]. split; [auto|]. split; [assumption|]. split; [assumption|].
    split; [intros _; apply H3; lia|]. split; [auto|]. intros; lia.
  - destruct (Z.eqb_spec k 4) as [-> |]; [|discriminate].
    assert (Hth : forall t0 f,
               Some (BookingFlow.mk 5
                       (BookingData.mk a la lo sv d da ti (Some t0) pa ro pr)) = Some f ->
               flow_inv f).
    { intros t0 f [= <-]. unfold flow_inv. flow_simpl.
      split; [lia|]. split; [assumption|]. split; [assumption|]. split; [assumption|].
      split; [intros _; apply H3; lia|]. split; [intros _; apply H4; lia|].
      discriminate. }
    destruct radio as [t|]; [|destruct th as [t|]; [|discriminate]];
      exact (Hth _ _ He).
  - destruct (Z.eqb_spec k 5) as [-> |]; [|discriminate].
    injection He as <-. flow_simpl.
    split; [lia|]. split; [assumption|]. split; [assumption|]. split; [assumption|].
    split; [intros _; apply H3; lia|]. split; [intros _; apply H4; lia|].
    intros _; apply H5; lia.
  - destruct (Z.leb_spec 2 k); [|discriminate].
    destruct (Z.leb_spec k 6); [|discriminate].
    injection He as <-. flow_simpl.
    split; [lia|]. split; [assumption|]. split; [assumption|]. split; [assumption|].
    split; [intros; apply H3; lia|]. split; [intros; apply H4; lia|].
    intros; apply H5; lia.
  - destruct (Z.eqb_spec k 6) as [-> |]; [|discriminate].
    injection He as <-. flow_simpl.
    split; [lia|]. split; [assumption|]. split; [assumption|]. split; [assumption|].
    split; [intros; apply H3; lia|]. split; [intros; apply H4; lia|].
    intros; apply H5; lia.
  - destruct (Z.eqb_spec k 7) as [-> |]; [|discriminate].
    injection He as <-. unfold BookingFlow.empty_data. flow_simpl.
    split; [lia|]. split; [auto|]. split; [auto|]. split; [discriminate|].
    repeat split; intros; lia.
Qed.

Lemma flow_inv_run (es : list FlowEvent) (s s' : BookingFlow.t) :
  flow_inv s -> flow_run es s = Some s' -> flow_inv s'.
Proof.
  revert s. induction es as [|e es IH]; intros s Hs H; simpl in H.
  - now injection H as <-.
  - destruct (flow e s) as [s1|] eqn:He; [|discriminate].
    eapply IH; [eapply flow_inv_step|]; eassumption.
Qed.

(** X4. The wizard always shows one of its seven steps: the [default]
    branch of [renderStep] is never taken. *)
Theorem wizard_always_renders_a_step (es : list FlowEvent) (s : BookingFlow.t) :
  flow_run es BookingFlow.initial = Some s ->
  1 <= BookingFlow.step s <= 7 /\ BookingFlow.renderStep s <> None.
Proof.
  intros Hrun.
  destruct (flow_inv_run es _ s flow_inv_initial Hrun) as (Hk & _).
  split; [exact Hk|].
  unfold BookingFlow.renderStep.
  assert (H : exists n : nat, (n < 7)%nat /\ BookingFlow.step s = 1 + Z.of_nat n).
  { exists (Z.to_nat (BookingFlow.step s - 1)). lia. }
  destruct H as (n & Hn & ->).
  do 7 (destruct n as [|n]; [discriminate|]). lia.
Qed.

Lemma wizard_always_renders_a_step_witness :
  BookingFlow.renderStep (FlowExample.final FlowExample.events) <> None.
Proof.
  apply (wizard_always_renders_a_step FlowExample.events). reflexivity.
Defined.

(** X5. The payment step is reached only with a complete booking: a
    service of [SERVICES], one of the offered durations (a legal one for
    that service), the price [calculatePrice] gives for them, a date, one
    of the 24 time slots and a therapist.  With such data
    [createBookingRequest] sends its insert, instead of failing on a
    missing service or therapist. *)
Theorem payment_step_has_a_complete_booking (es : list FlowEvent) (s : BookingFlow.t) :
  flow_run es BookingFlow.initial = Some s ->
  BookingFlow.step s = 6 ->
  let data := BookingFlow.bookingData s in
  (exists (tier : Service.t) (therapist : Therapist.t),
      BookingData.service data = Some tier
      /\ In tier SERVICES
      /\ In (BookingData.duration data) DURATION_OPTIONS
      /\ increment_rule tier (BookingData.duration data) = true
      /\ BookingData.price data = calculatePrice (Some tier) (BookingData.duration data)
      /\ BookingData.therapist data = Some therapist)
  /\ BookingData.date data <> ""%string
  /\ In (BookingData.time data) generateTimeSlots
  /\ (forall (st : Store.t) (dashboard_user user : positive) (latency : Z)
             (reply : InsertReply),
         PaymentForm.insertRequest
           (form (mount st dashboard_user data user latency reply))
         = Some (latency, reply)
         /\ PaymentForm.error (form (mount st dashboard_user data user latency reply))
            = ""%string).
Proof.
  intros Hrun H6 data.
  destruct (flow_inv_run es _ s flow_inv_initial Hrun)
    as (_ & _ & _ & Hsv & H3 & H4 & H5).
  destruct H3 as (Hsome & Hdur & Hprice); [lia|].
  destruct H4 as (Hdate & Htime); [lia|].
  specialize (H5 ltac:(lia)).
  fold data in Hsv, Hsome, Hdur, Hprice, Hdate, Htime, H5.
  destruct (BookingData.service data) as [tier|] eqn:Htier; [|contradiction].
  destruct (BookingData.therapist data) as [therapist|] eqn:Hth; [|contradiction].
  split; [|split; [|split]]; try assumption.
  - exists tier, therapist.
    repeat split; auto using options_obey_increment_rule.
  - intros st dashboard_user user latency reply.
    unfold mount, createBookingRequest, booking_row. cbn [PaymentForm.data PaymentForm.user].
    rewrite Htier, Hth. unfold_form. split; reflexivity.
Qed.

Lemma payment_step_has_a_complete_booking_witness :
  In (BookingData.time (BookingFlow.bookingData (FlowExample.final FlowExample.events)))
     generateTimeSlots.
Proof.
  apply (payment_step_has_a_complete_booking FlowExample.events
           (FlowExample.final FlowExample.events)); reflexivity.
Defined.

(** X6. At the payment step the price is a whole amount between 80 and
    200, and the price column stores it as it is: nothing is lost to the
    two decimal places of the column. *)
Theorem payment_step_price_is_stored_exactly (es : list FlowEvent) (s : BookingFlow.t) :
  flow_run es BookingFlow.initial = Some s ->
  BookingFlow.step s = 6 ->
  exists amount : Z,
    80 <= amount <= 200
    /\ BookingData.price (BookingFlow.bookingData s) =js JS.of_Z amount
    /\ decimal_10_2 (BookingData.price (BookingFlow.bookingData s))
       = Some (inject_Z amount).
Proof.
  intros Hrun H6.
  destruct (flow_inv_run es _ s flow_inv_initial Hrun)
    as (_ & _ & _ & Hsv & H3 & _).
  destruct H3 as (Hsome & Hdur & ->); [lia|].
  destruct (BookingData.service (BookingFlow.bookingData s)) as [tier|] eqn:Htier;
    [|contradiction].
  specialize (Hsv tier eq_refl).
  revert Hsv Hdur. generalize (BookingData.duration (BookingFlow.bookingData s)).
  intros d Ht Hd. unfold SERVICES, DURATION_OPTIONS in *. simpl in Ht, Hd.
  repeat (destruct Ht as [<- | Ht];
          [repeat (destruct Hd as [<- | Hd];
                   [eexists; split; [|split; [|vm_compute; reflexivity]];
                    [|vm_compute; reflexivity]; lia|]);
           contradiction|]).
  contradiction.
Qed.

Lemma payment_step_price_is_stored_exactly_witness :
  exists amount : Z,
    80 <= amount <= 200
    /\ BookingData.price (BookingFlow.bookingData (FlowExample.final FlowExample.events))
       =js JS.of_Z amount
    /\ decimal_10_2
         (BookingData.price (BookingFlow.bookingData (FlowExample.final FlowExample.events)))
       = Some (inject_Z amount).
Proof.
  apply (payment_step_price_is_stored_exactly FlowExample.events); reflexivity.
Defined.



(** ** The list of the dashboard *)

Lemma fetchBookings_lookup (st : Store.t) (d : Dashboard.t) (id : positive) (b : Booking.t) :
  Dashboard.bookings (fetchBookings true st d) !! id = Some b <->
  Store.bookings st !! id = Some b
  /\ Booking.therapist_id b = Dashboard.user d
  /\ (Booking.status b = requested \/ Booking.status b = confirmed).
Proof.
  unfold fetchBookings. cbn [Dashboard.bookings].
  rewrite map_lookup_filter_Some. reflexivity.
Qed.

Lemma fetchBookings_lookup_None (st : Store.t) (d : Dashboard.t) (id : positive) :
  Dashboard.bookings (fetchBookings true st d) !! id = None <->
  forall b, Store.bookings st !! id = Some b ->
            ~ (Booking.therapist_id b = Dashboard.user d
               /\ (Booking.status b = requested \/ Booking.status b = confirmed)).
Proof.
  unfold fetchBookings. cbn [Dashboard.bookings].
  rewrite map_lookup_filter_None. split.
  - intros [Hn | Hn] b Hb; [congruence | exact (Hn b Hb)].
  - intros H. destruct (Store.bookings st !! id) as [b|]; [right | now left].
    intros b' [= <-]. now apply H.
Qed.

(** X8. A request that was created shows up, with both buttons, in the
    list of the therapist chosen in the wizard, and in the list of no
    other therapist. *)
Theorem created_request_reaches_its_therapist
    (now : Z) (id : positive) (st : Store.t) (f : PaymentForm.t)
    (amount : Q) (row : Booking.t) (d : Dashboard.t) :
  decimal_10_2 (BookingData.price (PaymentForm.data f)) = Some amount ->
  booking_row (PaymentForm.user f) (PaymentForm.data f) amount = Some row ->
  Store.bookings st !! id = None ->
  let st' := (createBookingRequest_resumed now (Inserted id) st f).1 in
  (Therapist.id <$> BookingData.therapist (PaymentForm.data f)
   = Some (Booking.therapist_id row))
  /\ (Booking.therapist_id row = Dashboard.user d ->
      Dashboard.bookings (fetchBookings true st' d) !! id = Some row
      /\ Dashboard.buttons row = [Dashboard.Accept; Dashboard.Decline])
  /\ (Booking.therapist_id row <> Dashboard.user d ->
      Dashboard.bookings (fetchBookings true st' d) !! id = None).
Proof.
  intros Hamount Hrow Hfresh st'.
  assert (Hst' : Store.bookings st' = <[id := row]> (Store.bookings st)).
  { subst st'. unfold createBookingRequest_resumed.
    rewrite Hamount. simpl. now rewrite Hrow, Hfresh. }
  assert (Hfields : Booking.status row = requested
                    /\ Therapist.id <$> BookingData.therapist (PaymentForm.data f)
                       = Some (Booking.therapist_id row)).
  { unfold booking_row in Hrow.
    destruct (BookingData.therapist (PaymentForm.data f)),
             (BookingData.service (PaymentForm.data f)); try discriminate.
    injection Hrow as <-. auto. }
  destruct Hfields as [Hstatus Hth].
  split; [exact Hth | split].
  - intros Hd. split.
    + apply fetchBookings_lookup. rewrite Hst', lookup_insert_eq. auto.
    + unfold Dashboard.buttons. rewrite Hstatus. reflexivity.
  - intros Hd. apply fetchBookings_lookup_None.
    intros b. rewrite Hst', lookup_insert_eq. intros [= <-] [H _]. contradiction.
Qed.

Lemma created_request_reaches_its_therapist_witness :
  Dashboard.bookings
    (fetchBookings true
       (createBookingRequest_resumed 200 (Inserted 1) Example.empty_store
          (form (Example.system 200))).1
       (Dashboard.mk 7 ∅)) !! 1%positive
  = Some (Booking.mk 3 7 1 120 "2025-03-01" "09:30" "1 George St"
            (Some (-33 # 1)%Q) (Some (151 # 1)%Q) "street" "upstairs" 160 requested).
Proof.
  apply (created_request_reaches_its_therapist 200 1%positive Example.empty_store
           (form (Example.system 200)) 160%Q
           (Booking.mk 3 7 1 120 "2025-03-01" "09:30" "1 George St"
              (Some (-33 # 1)%Q) (Some (151 # 1)%Q) "street" "upstairs" 160 requested)
           (Dashboard.mk 7 ∅));
    vm_compute; reflexivity.
Defined.

Lemma exec_dashboard (e : Event) (s s' : System) :
  exec e s = Some s' ->
  dashboard s' = dashboard s
  \/ exists ok, e = Fetch ok /\ store s' = store s
                /\ dashboard s' = fetchBookings ok (store s) (dashboard s).
Proof.
  destruct e as [t | | stripe method update insert | | ok | id button reply
                | services | id row]; simpl; intros H.
  - destruct (_ && _); inversion H; subst; auto.
  - destruct (next_task (form s)) as [[task due]|]; inversion H; subst.
    left. destruct task; simpl; try reflexivity.
    + destruct (PaymentForm.insertRequest (form s)) as [[d r]|]; [|reflexivity].
      now destruct (createBookingRequest_resumed _ _ _ _).
    + now destruct (PaymentForm.countdownTimer (form s)) as [[d c]|].
  - destruct (PaymentForm.mounted (form s)); [|discriminate].
    destruct (handlePayment _ _ _ _ _ _) as [[st f] ok].
    inversion H; subst; auto.
  - destruct (PaymentForm.mounted (form s)); inversion H; subst; auto.
  - inversion H; subst. right. exists ok. auto.
  - destruct (Dashboard.bookings (dashboard s) !! id); [|discriminate].
    destruct (bool_decide _); inversion H; subst; auto.
  - inversion H; subst; auto.
  - destruct (Store.bookings (store s) !! id); [discriminate|].
    destruct (bool_decide _); inversion H; subst; auto.
Qed.

Lemma answered_exec (id : positive) (e : Event) (s s' : System) :
  answered id s -> exec e s = Some s' -> answered id s'.
Proof.
  intros [(b & Hb & Hst) Hdash] He.
  pose proof (exec_same_rows e s s' He id b Hb) as (st' & Hb' & Hmono).
  split.
  - exists (Booking.with_status st' b). split; [exact Hb'|].
    simpl. intros ->. auto.
  - destruct (exec_dashboard e s s' He) as [-> | (ok & -> & Hstore & ->)];
      [exact Hdash|].
    intros b0. destruct ok.
    + intros H0. apply fetchBookings_lookup in H0. destruct H0 as (Hb0 & _).
      rewrite Hstore in Hb'. congruence.
    + unfold fetchBookings. cbn [Dashboard.bookings]. now rewrite lookup_empty.
Qed.

Lemma answered_run (id : positive) (es : list Event) (s s' : System) :
  answered id s -> run es s = Some s' -> answered id s'.
Proof.
  revert s. induction es as [|e es IH]; intros s Hs H; simpl in H.
  - now injection H as <-.
  - destruct (exec e s) as [s1|] eqn:He; [|discriminate].
    eapply IH; [eapply answered_exec|]; eassumption.
Qed.



(** X10. What a response does to the list: after a written Decline and
    a fetch the request is gone from the dashboard of its therapist;
    after a written Accept it is still listed, as ['confirmed'] and
    without buttons.  In any case the list holds only bookings of the
    therapist that are ['requested'] or ['confirmed'], as they are
    stored, and a fetch that fails empties it. *)
Theorem dashboard_lists_open_bookings_of_its_therapist :
  (forall (st : Store.t) (d : Dashboard.t) (id : positive) (b : Booking.t),
      Dashboard.bookings (fetchBookings true st d) !! id = Some b <->
      Store.bookings st !! id = Some b
      /\ Booking.therapist_id b = Dashboard.user d
      /\ (Booking.status b = requested \/ Booking.status b = confirmed))
  /\ (forall (st : Store.t) (d : Dashboard.t),
         Dashboard.bookings (fetchBookings false st d) = ∅)
  /\ (forall (st : Store.t) (d : Dashboard.t) (id : positive) (b : Booking.t)
             (button : Dashboard.Button),
         Store.bookings st !! id = Some b ->
         Booking.therapist_id b = Dashboard.user d ->
         Dashboard.bookings
           (fetchBookings true
              (handleBookingResponse id (Dashboard.response button) Written st).1 d) !! id
         = match button with
           | Dashboard.Accept => Some (Booking.with_status confirmed b)
           | Dashboard.Decline => None
           end
         /\ Dashboard.buttons (Booking.with_status confirmed b) = []).
Proof.
  split; [exact fetchBookings_lookup | split; [reflexivity|]].
  intros st d id b button Hb Hd.
  split; [|reflexivity].
  destruct button.
  - apply fetchBookings_lookup. simpl. rewrite lookup_alter_eq, Hb. simpl. auto.
  - apply fetchBookings_lookup_None. simpl. rewrite lookup_alter_eq, Hb. simpl.
    intros b' [= <-] (_ & [H | H]); discriminate.
Qed.

Lemma dashboard_lists_open_bookings_of_its_therapist_witness :
  Dashboard.bookings
    (fetchBookings true
       (handleBookingResponse 1 (Dashboard.response Dashboard.Decline) Written
          (store (Example.final [Fire] (Example.system 200)))).1
       (Dashboard.mk 7 ∅)) !! 1%positive
  = None.
Proof.
  destruct dashboard_lists_open_bookings_of_its_therapist as (_ & _ & H).
  apply (H (store (Example.final [Fire] (Example.system 200))) (Dashboard.mk 7 ∅)
           1%positive
           (Booking.mk 3 7 1 120 "2025-03-01" "09:30" "1 George St"
              (Some (-33 # 1)%Q) (Some (151 # 1)%Q) "street" "upstairs" 160 requested)
           Dashboard.Decline);
    vm_compute; reflexivity.
Defined.

(** ** The reports *)

Lemma or_zero_fin (q : Q) : or_zero (JS.Fin q) =js JS.Fin q.
Proof.
  unfold or_zero. destruct (Qeq_bool q 0) eqn:H; simpl; [|reflexivity].
  apply Qeq_bool_eq in H. now rewrite H.
Qed.

Lemma fold_left_revenue (rows : list Booking.t) (acc : Q) :
  exists q, fold_left (fun sum b => JS.add sum (JS.Fin (Booking.price b)))
                      rows (JS.Fin acc) = JS.Fin q
            /\ (q == acc + revenue rows)%Q.
Proof.
  revert acc. induction rows as [|b rows IH]; intros acc; simpl.
  - exists acc. split; [reflexivity | ring].
  - destruct (IH (acc + Booking.price b)%Q) as (q & -> & Hq).
    exists q. split; [reflexivity|]. rewrite Hq. ring.
Qed.

Lemma report_revenue (today : string) (rows : list Booking.t)
    (therapistCount : option (list positive)) :
  Stats.totalRevenue (report today (Some rows) therapistCount)
  =js JS.Fin (revenue rows).
Proof.
  unfold report. cbn [Stats.totalRevenue].
  destruct (fold_left_revenue rows 0) as (q & Hq & Hsum).
  change (JS.of_Z 0) with (JS.Fin 0). rewrite Hq.
  pose proof (or_zero_fin q) as H.
  destruct (or_zero (JS.Fin q)) as [q'| | |]; simpl in *; try contradiction.
  rewrite H, Hsum. ring.
Qed.

Lemma revenue_perm (l1 l2 : list Booking.t) :
  l1 ≡ₚ l2 -> (revenue l1 == revenue l2)%Q.
Proof.
  induction 1 as [|b l1 l2 _ IH | b1 b2 l | l1 l2 l3 _ IH1 _ IH2]; simpl.
  - reflexivity.
  - now rewrite IH.
  - ring.
  - now rewrite IH1.
Qed.

Lemma today_count_perm (today : string) (l1 l2 : list Booking.t) :
  l1 ≡ₚ l2 ->
  length (List.filter (fun b => String.eqb (Booking.date b) today) l1)
  = length (List.filter (fun b => String.eqb (Booking.date b) today) l2).
Proof.
  induction 1 as [|b l1 l2 _ IH | b1 b2 l | l1 l2 l3 _ IH1 _ IH2]; simpl.
  - reflexivity.
  - destruct (String.eqb _ _); simpl; congruence.
  - destruct (String.eqb (Booking.date b1) today), (String.eqb (Booking.date b2) today);
      reflexivity.
  - congruence.
Qed.

(** The confirmed bookings after a write of a status on one row. *)
Lemma confirmed_bookings_alter (st : Store.t) (id : positive) (b : Booking.t)
    (v : BookingStatus) :
  Store.bookings st !! id = Some b ->
  Booking.status b <> confirmed ->
  let st' := Store_ops.with_bookings
               (alter (Booking.with_status v) id (Store.bookings st)) st in
  if decide (v = confirmed)
  then confirmed_bookings st' ≡ₚ Booking.with_status confirmed b :: confirmed_bookings st
  else confirmed_bookings st' = confirmed_bookings st.
Proof.
  intros Hb Hnot st'.
  set (P := fun kv : positive * Booking.t => Booking.status kv.2 = confirmed).
  assert (Halter : alter (Booking.with_status v) id (Store.bookings st)
                   = <[id := Booking.with_status v b]> (Store.bookings st)).
  { apply map_eq. intros j. destruct (decide (id = j)) as [<- | Hne].
    - now rewrite lookup_alter_eq, lookup_insert_eq, Hb.
    - now rewrite lookup_alter_ne, lookup_insert_ne. }
  assert (Hnone : filter P (Store.bookings st) !! id = None).
  { apply map_lookup_filter_None. right. intros b' Hb'. unfold P. simpl. congruence. }
  unfold confirmed_bookings. subst st'. cbn [Store.bookings Store_ops.with_bookings].
  fold P. rewrite Halter.
  destruct (decide (v = confirmed)) as [-> | Hv].
  - rewrite map_filter_insert_True by reflexivity.
    rewrite (map_to_list_insert _ _ _ Hnone). reflexivity.
  - rewrite map_filter_insert_not' ; [reflexivity | exact Hv |].
    intros b' Hb'. unfold P. simpl. congruence.
Qed.

(** ** Payments *)

Lemma mount_payment (st : Store.t) (therapist : positive) (data : BookingData.t)
    (user : positive) (latency : Z) (reply : InsertReply) :
  payment_inv (Store.payments st) (mount st therapist data user latency reply).
Proof.
  unfold payment_inv, mount, createBookingRequest. unfold_form.
  destruct (booking_row user data 0); simpl; repeat split;
    try discriminate; try reflexivity; intros [H | [_ H]]; congruence.
Qed.

Lemma exec_payment (payments : list Payment.t) (e : Event) (s s' : System) :
  payment_inv payments s -> exec e s = Some s' -> payment_inv payments s'.
Proof.
  destruct s as [t stp st [data user proc err bid rs tr mnt ins resp cd] dash].
  unfold payment_inv.
  destruct e as [t' | | stripe method update insert | | ok | id button reply
                | services | id row]; simpl; intros Inv H.
  - destruct (_ && _); inversion H; subst; simpl; exact Inv.
  - destruct (next_task _) as [[task due]|] eqn:Hnext; [|discriminate].
    apply next_task_spec in Hnext. simpl in Hnext.
    destruct task; simpl in H.
    + destruct Hnext as ([reply ->] & _). simpl in H.
      unfold createBookingRequest_resumed in H. unfold_form. simpl in H.
      destruct Inv as ((-> & -> & Hrs) & _ & H7 & Hn7).
      assert (stp <> 7) as Hstp by (intros E; destruct (H7 E) as (_ & ? & _); discriminate).
      repeat case_match; simplify_eq/=; repeat split; auto;
        try (intros [? | [? ?]]; congruence); try congruence.
    + destruct Hnext as (-> & _).
      destruct Inv as (Hins & Hacc & H7 & Hn7).
      assert (ins = None) as ->
          by (destruct ins; [destruct Hins as (_ & ? & _); discriminate | reflexivity]).
      destruct mnt.
      * destruct bid as [id|]; [|exfalso; apply Hacc; [right; split; congruence | reflexivity]].
        assert (stp <> 7) as Hstp by (intros E; destruct (H7 E) as (? & _); discriminate).
        unfold_form. simpl in H.
        repeat case_match; simplify_eq/=; repeat split; auto; congruence.
      * unfold_form. simpl in H. simplify_eq/=. repeat split; auto;
          try (intros [? | [? _]]; [auto | discriminate]).
        now destruct H7 as (_ & _ & ?).
    + destruct Hnext as ([c ->] & _).
      destruct Inv as (Hins & Hacc & H7 & Hn7).
      assert (forall v, (rs = accepted \/ (mnt = true /\ resp <> None) -> bid <> None) ->
                        v <> accepted ->
                        v = accepted \/ (mnt = true /\ resp <> None) -> bid <> None)
        as Hkeep by (intros v Hk Hv [? | ?]; [contradiction | auto]).
      unfold_form. simpl in H.
      repeat case_match; simplify_eq/=; repeat split; auto;
        try (destruct Hins as (? & ? & ?); auto; fail);
        try (apply Hkeep; [assumption | discriminate]);
        try match goal with
            | E : stp = 7 |- _ =>
                destruct (H7 E) as (? & ? & ?);
                first [discriminate | congruence | assumption]
            end.
  - destruct mnt; [|discriminate].
    destruct (handlePayment _ _ _ _ _ _) as [[st' f'] ok] eqn:Hpay.
    apply handlePayment_cases in Hpay; [|reflexivity].
    inversion H; subst; clear H. simpl in Hpay.
    destruct Inv as (Hins & Hacc & H7 & Hn7).
    assert (stp <> 7) as Hstp by (intros E; destruct (H7 E) as (? & _); discriminate).
    destruct Hpay as [(-> & -> & -> & _)
                     | [(-> & _ & -> & (msg & -> & _) & Hst)
                       | (-> & _ & -> & -> & pm & amount & _ & Hamount & _ & ->)]];
      simpl.
    + repeat split; auto; contradiction.
    + repeat split; auto; try contradiction.
      destruct Hst as [-> | ->]; simpl; auto.
    + assert (ins = None) as ->
          by (destruct ins; [destruct Hins as (_ & _ & ?); congruence | reflexivity]).
      destruct bid as [id|]; [|exfalso; apply Hacc; auto].
      repeat split; auto; try congruence.
      exists id, (Payment.mk (Some id) pm amount "completed").
      simpl. rewrite (Hn7 Hstp). auto.
  - unfold_form. simpl in H. destruct mnt; inversion H; subst; clear H; simpl.
    destruct Inv as (Hins & Hacc & H7 & Hn7).
    assert (stp <> 7) as Hstp by (intros E; destruct (H7 E) as (? & _); discriminate).
    repeat split; auto; try lia.
    intros [? | [? _]]; [auto | discriminate].
  - inversion H; subst; simpl; exact Inv.
  - destruct (Dashboard.bookings dash !! id); [|discriminate].
    destruct (bool_decide _); inversion H; subst; clear H; simpl.
    unfold handleBookingResponse.
    destruct (update_status _ _ _ _) as [bs err']. simpl. exact Inv.
  - inversion H; subst; simpl; exact Inv.
  - destruct (Store.bookings st !! id); [discriminate|].
    destruct (bool_decide _); inversion H; subst; simpl; exact Inv.
Qed.

Lemma run_payment (payments : list Payment.t) (es : list Event) (s s' : System) :
  payment_inv payments s -> run es s = Some s' -> payment_inv payments s'.
Proof.
  revert s. induction es as [|e es IH]; intros s Hs H; simpl in H.
  - now inversion H; subst.
  - destruct (exec e s) as [s1|] eqn:He; [|discriminate].
    eapply IH; [eapply exec_payment|]; eassumption.
Qed.

(** ** A refused insert *)

Lemma mount_refused (st : Store.t) (therapist : positive) (data : BookingData.t)
    (user : positive) (latency : Z) (message : string) :
  refused_inv (mount st therapist data user latency (InsertRefused message)).
Proof.
  unfold refused_inv, mount, createBookingRequest. unfold_form.
  destruct (booking_row user data 0); simpl; repeat split;
    try discriminate; try reflexivity; eauto.
Qed.

Lemma exec_refused (e : Event) (s s' : System) :
  refused_inv s -> exec e s = Some s' -> refused_inv s'.
Proof.
  destruct s as [t stp st [data user proc err bid rs tr mnt ins resp cd] dash].
  unfold refused_inv.
  destruct e as [t' | | stripe method update insert | | ok | id button reply
                | services | id row]; simpl; intros Inv H.
  - destruct (_ && _); inversion H; subst; simpl; exact Inv.
  - destruct (next_task _) as [[task due]|] eqn:Hnext; [|discriminate].
    apply next_task_spec in Hnext. simpl in Hnext.
    destruct Inv as (-> & -> & Hrs & Hstp & Hins).
    destruct task; simpl in H.
    + destruct Hnext as ([reply ->] & _). destruct Hins as [message ->].
      simpl in H. unfold createBookingRequest_resumed in H. unfold_form.
      destruct mnt; simplify_eq/=; repeat split; auto; discriminate.
    + destruct Hnext as (? & _). discriminate.
    + destruct Hnext as ([c ->] & _). unfold_form. simpl in H.
      repeat case_match; simplify_eq/=; repeat split; auto; discriminate.
  - destruct mnt; [|discriminate].
    destruct (handlePayment _ _ _ _ _ _) as [[st' f'] ok] eqn:Hpay.
    apply handlePayment_cases in Hpay; [|reflexivity].
    inversion H; subst; clear H. simpl in Hpay.
    destruct Inv as (-> & -> & Hrs & Hstp & Hins).
    destruct Hpay as [(-> & -> & -> & _) | [(_ & _ & ? & _) | (_ & _ & ? & _)]];
      [|contradiction..].
    simpl. auto.
  - unfold_form. simpl in H. destruct mnt; inversion H; subst; clear H; simpl.
    destruct Inv as (-> & -> & Hrs & Hstp & Hins).
    repeat split; auto; try lia. destruct ins as [[? ?]|]; [assumption | discriminate].
  - inversion H; subst; simpl; exact Inv.
  - destruct (Dashboard.bookings dash !! id); [|discriminate].
    destruct (bool_decide _); inversion H; subst; clear H; simpl. exact Inv.
  - inversion H; subst; simpl; exact Inv.
  - destruct (Store.bookings st !! id); [discriminate|].
    destruct (bool_decide _); inversion H; subst; simpl; exact Inv.
Qed.

Lemma run_refused (es : list Event) (s s' : System) :
  refused_inv s -> run es s = Some s' -> refused_inv s'.
Proof.
  revert s. induction es as [|e es IH]; intros s Hs H; simpl in H.
  - now inversion H; subst.
  - destruct (exec e s) as [s1|] eqn:He; [|discriminate].
    eapply IH; [eapply exec_refused|]; eassumption.
Qed.



(** X12. A request the store refuses cannot be paid.  When the answer to
    the insert of [createBookingRequest] is an error, then in every
    state the form can reach: it has no [bookingId], it is never
    ['accepted'], its pay button is disabled and submitting the form
    changes nothing, the thank-you page is not reached and no payment is
    written; while the form is on the page it shows ['Failed to create
    booking request'] once the answer has arrived, and from 120 seconds
    on, with no callback due, it is in ['timeout']. *)
Theorem refused_request_cannot_be_paid (st : Store.t) (therapist : positive)
    (data : BookingData.t) (user : positive) (latency : Z) (message : string)
    (es : list Event) (s' : System) :
  0 <= latency ->
  run es (mount st therapist data user latency (InsertRefused message)) = Some s' ->
  PaymentForm.bookingId (form s') = None
  /\ PaymentForm.requestStatus (form s') <> accepted
  /\ (forall stripe, PaymentForm.pay_disabled stripe (form s') = true)
  /\ (forall stripe method update insert,
         PaymentForm.mounted (form s') = true ->
         exec (Pay stripe method update insert) s' = Some s')
  /\ step s' <> 7
  /\ Store.payments (store s') = Store.payments st
  /\ (PaymentForm.mounted (form s') = true ->
      (latency < now s' ->
       PaymentForm.error (form s') = "Failed to create booking request"%string)
      /\ (120000 <= now s' -> settled s' = true ->
          PaymentForm.requestStatus (form s') = timeout)).
Proof.
  intros HL Hrun.
  pose proof (run_refused _ _ _ (mount_refused st therapist data user latency message)
                Hrun) as (Hbid & Hresp & Hrs & Hstp & Hins).
  pose proof (run_payment _ _ _ _
                (mount_payment st therapist data user latency (InsertRefused message))
                Hrun) as (_ & _ & _ & Hn7).
  pose proof (run_timing latency HL _ _ _
                (mount_timing latency HL st therapist data user (InsertRefused message))
                Hrun) as (Hnow & Htr & Hcd & _ & Hreq & _).
  destruct s' as [t stp st' [d u proc err bid rs tr mnt ins resp cd] dash].
  unfold settled, next_task, pick in *. simpl in *. subst bid resp.
  split; [reflexivity|]. split; [exact Hrs|].
  split.
  { intros stripe. unfold PaymentForm.pay_disabled. simpl.
    rewrite (bool_decide_eq_false_2 _ Hrs). simpl. now rewrite !orb_true_r. }
  split.
  { intros stripe method update insert ->. unfold handlePayment. simpl.
    rewrite (bool_decide_eq_false_2 _ Hrs). simpl. now rewrite orb_true_r. }
  split; [exact Hstp|]. split; [exact (Hn7 Hstp)|].
  intros ->. split.
  - intros Hlate. destruct ins as [[due r]|]; [lia | auto].
  - intros Hlate Hsettled.
    destruct cd as [[due c]|].
    + exfalso. destruct Hcd as (_ & _ & _ & Hc & -> & _).
      destruct ins as [[di r]|]; simpl in Hsettled.
      * destruct (Z.leb_spec di ((121 - c) * 1000)); apply Z.ltb_lt in Hsettled; lia.
      * apply Z.ltb_lt in Hsettled. lia.
    + specialize (Hcd eq_refl). destruct rs; congruence.
Qed.

Lemma refused_request_cannot_be_paid_witness :
  let es := [Fire; Fire; Wait 1500; Pay true Example.card_accepted Written None] in
  let s0 := mount Example.empty_store (Therapist.id Example.therapist) Example.data
              Example.customer 200 (InsertRefused "permission denied") in
  let s' := Example.final es s0 in
  PaymentForm.bookingId (form s') = None
  /\ PaymentForm.requestStatus (form s') <> accepted
  /\ (forall stripe, PaymentForm.pay_disabled stripe (form s') = true)
  /\ (forall stripe method update insert,
         PaymentForm.mounted (form s') = true ->
         exec (Pay stripe method update insert) s' = Some s')
  /\ step s' <> 7
  /\ Store.payments (store s') = []
  /\ (PaymentForm.mounted (form s') = true ->
      (200 < now s' ->
       PaymentForm.error (form s') = "Failed to create booking request"%string)
      /\ (120000 <= now s' -> settled s' = true ->
          PaymentForm.requestStatus (form s') = timeout)).
Proof.
  intros es s0 s'.
  apply (refused_request_cannot_be_paid Example.empty_store
           (Therapist.id Example.therapist) Example.data Example.customer 200
           "permission denied" es s').
  - lia.
  - vm_compute. reflexivity.
Defined.



(** ** The application shell *)

(** X14. [App] shows the page of the role.  In no state does [<main>]
    hold more than one page.  When [checkUser] finds the user and the
    role, then whatever the state was, the spinner is gone, the
    navigation bar is shown and [<main>] holds exactly the page of that
    role: [BookingFlow] for a customer, [TherapistDashboard] for a
    therapist, [AdminDashboard] for an admin.  After a logout [<main>]
    holds the login form alone.  When [checkUser] finds the user but no
    row in [users], on the initial state or after a logout, the
    navigation bar is shown over an empty [<main>]; and a [checkUser]
    that finds no user changes nothing but the spinner. *)
Theorem app_shows_the_page_of_the_role :
  (forall a : App.t, (length (App.main a) <= 1)%nat)
  /\ (forall (a : App.t) (u : AuthUser.t) (role : Role.t),
         App.render (App.checkUser (Some u) (Some role) a)
         = Some (true, [App.page_of role u]))
  /\ (forall a : App.t, App.main (App.handleLogout a) = [LoginFormPage])
  /\ (forall (a : App.t) (u : AuthUser.t),
         App.render (App.checkUser (Some u) None App.initial) = Some (true, [])
         /\ App.render (App.checkUser (Some u) None (App.handleLogout a))
            = Some (true, []))
  /\ (forall (a : App.t) (userData : option Role.t),
         App.checkUser None userData a
         = App.mk (App.user a) (App.userRole a) (App.currentView a) false).
Proof.
  split; [|split; [|split; [|split]]].
  - intros [[u|] [[| |]|] [| | |] l]; vm_compute; lia.
  - intros [u0 r0 v0 l] u [| |]; reflexivity.
  - intros [u r v l]. reflexivity.
  - intros [u0 r0 v0 l] u. split; reflexivity.
  - intros [u r v l] userData. reflexivity.
Qed.

(** ** Signing up *)

Lemma handleSubmit_cases (answers : Answers.t) (db : Backend.t) (f : LoginForm.t) :
  let db' := (LoginForm.handleSubmit answers db f).1.1 in
  db' = db
  \/ exists (id : positive) (row : User.t),
       Backend.users db !! id = None
       /\ User.role row <> Role.admin
       /\ (db' = Backend.mk (<[id := row]> (Backend.users db))
                   (Backend.therapist_profiles db)
           \/ Backend.therapist_profiles db !! id = None
              /\ User.role row = Role.therapist
              /\ exists p,
                   db' = Backend.mk (<[id := row]> (Backend.users db))
                           (<[id := p]> (Backend.therapist_profiles db))).
Proof.
  destruct db as [users profiles], f as [email password name phone signup ther err l],
    answers as [[msg | [id|]] ui pi si];
    unfold LoginForm.handleSubmit, insert_row; simpl;
    destruct signup; simpl; try (destruct si; simpl; auto; fail); auto.
  destruct ui as [m|]; simpl; auto.
  destruct (users !! id) eqn:Hu; simpl; auto.
  right. exists id, (User.mk name email phone (if ther then Role.therapist else Role.customer)).
  split; [exact Hu|]. split; [destruct ther; discriminate|].
  destruct ther; simpl; auto.
  destruct pi as [m|]; simpl; auto.
  destruct (profiles !! id) eqn:Hp; simpl; auto.
  right. repeat split; auto. eexists. reflexivity.
Qed.

Lemma handleSubmit_step (answers : Answers.t) (db : Backend.t) (f : LoginForm.t) :
  let db' := (LoginForm.handleSubmit answers db f).1.1 in
  (profiles_of_therapists db -> profiles_of_therapists db')
  /\ Backend.users db ⊆ Backend.users db'
  /\ Backend.therapist_profiles db ⊆ Backend.therapist_profiles db'
  /\ (forall id u,
         Backend.users db' !! id = Some u -> User.role u = Role.admin ->
         Backend.users db !! id = Some u).
Proof.
  intros db'. destruct (handleSubmit_cases answers db f) as [H | (id & row & Hu & Hrole & H)];
    fold db' in H.
  - rewrite H. auto.
  - assert (Backend.users db' = <[id := row]> (Backend.users db)) as Husers
        by (destruct H as [-> | (_ & _ & p & ->)]; reflexivity).
    rewrite Husers.
    assert (forall id' u, (<[id := row]> (Backend.users db)) !! id' = Some u ->
                          User.role u = Role.admin -> Backend.users db !! id' = Some u)
      as Hadmin.
    { intros id' u Hl Ha. destruct (decide (id = id')) as [<- | Hne].
      - rewrite lookup_insert_eq in Hl. congruence.
      - now rewrite lookup_insert_ne in Hl. }
    assert (forall id' u, Backend.users db !! id' = Some u ->
                          (<[id := row]> (Backend.users db)) !! id' = Some u) as Hkeep.
    { intros id' u Hl. destruct (decide (id = id')) as [<- | Hne]; [congruence|].
      now rewrite lookup_insert_ne. }
    split; [|split; [apply insert_subseteq; exact Hu | split; [|exact Hadmin]]].
    + intros Inv id' p Hp. unfold profiles_of_therapists in Inv.
      rewrite Husers.
      destruct H as [-> | (Hnone & Hther & p' & ->)]; simpl in Hp.
      * destruct (Inv id' p Hp) as (u & Hl & Hr). eauto.
      * destruct (decide (id = id')) as [<- | Hne].
        -- exists row. now rewrite lookup_insert_eq.
        -- rewrite lookup_insert_ne in Hp by exact Hne.
           destruct (Inv id' p Hp) as (u & Hl & Hr). eauto.
    + destruct H as [-> | (Hnone & _ & p & ->)]; simpl; [reflexivity|].
      now apply insert_subseteq.
Qed.

(** X15. Signing up keeps every therapist profile with a therapist, and
    makes no admin.  If every row of [therapist_profiles] belongs to a
    user whose role is ['therapist'], this still holds after any
    sequence of submissions of the login form, with any inputs and any
    answers of the services; no row of [users] or of
    [therapist_profiles] is changed or removed, and every user whose
    role is ['admin'] afterwards was one before. *)
Theorem signup_keeps_profiles_with_therapists
    (calls : list (Answers.t * LoginForm.t)) (db : Backend.t) :
  profiles_of_therapists db ->
  let db' := submissions calls db in
  profiles_of_therapists db'
  /\ Backend.users db ⊆ Backend.users db'
  /\ Backend.therapist_profiles db ⊆ Backend.therapist_profiles db'
  /\ (forall id u,
         Backend.users db' !! id = Some u -> User.role u = Role.admin ->
         Backend.users db !! id = Some u).
Proof.
  revert db. induction calls as [|[answers f] calls IH]; intros db Inv; simpl.
  - repeat split; auto.
  - destruct (handleSubmit_step answers db f) as (H1 & H2 & H3 & H4).
    destruct (IH _ (H1 Inv)) as (I1 & I2 & I3 & I4).
    split; [exact I1|]. split; [etrans; eassumption|]. split; [etrans; eassumption|].
    intros id u Hl Ha. apply H4; [|exact Ha]. now apply I4.
Qed.

Lemma signup_keeps_profiles_with_therapists_witness :
  let db' := submissions SignupExample.calls (Backend.mk ∅ ∅) in
  profiles_of_therapists db'
  /\ Backend.users (Backend.mk ∅ ∅) ⊆ Backend.users db'
  /\ Backend.therapist_profiles (Backend.mk ∅ ∅) ⊆ Backend.therapist_profiles db'
  /\ (forall id u,
         Backend.users db' !! id = Some u -> User.role u = Role.admin ->
         Backend.users (Backend.mk ∅ ∅) !! id = Some u).
Proof.
  apply (signup_keeps_profiles_with_therapists SignupExample.calls (Backend.mk ∅ ∅)).
  intros id p H. simpl in H. now rewrite lookup_empty in H.
Defined.

Lemma therapists_insert (users : gmap positive User.t) (id : positive) (row : User.t) :
  users !! id = None ->
  let P := fun kv : positive * User.t => User.role kv.2 = Role.therapist in
  if decide (User.role row = Role.therapist)
  then map_to_list (filter P (<[id := row]> users))
       ≡ₚ (id, row) :: map_to_list (filter P users)
  else filter P (<[id := row]> users) = filter P users.
Proof.
  intros Hnone P. destruct (decide _) as [Hr | Hr].
  - rewrite map_filter_insert_True by exact Hr.
    apply map_to_list_insert. apply map_lookup_filter_None. left. exact Hnone.
  - apply map_filter_insert_not'; [exact Hr|]. intros y Hy. congruence.
Qed.

(** X16. A therapist who signs up is offered to the customers from the
    moment the row in [users] is written, whether or not the profile
    follows.  When the sign-up gives a user and the insert into [users]
    is accepted for a new id: for a therapist sign-up, whatever the
    answer to the insert of the profile, the therapist step lists the
    new user under the name entered, the report counts one active
    therapist more, and a [checkUser] that finds the user and reads the
    role shows the therapist dashboard; for a customer sign-up the list
    of therapists and the count are unchanged and [checkUser] shows the
    booking flow. *)
Theorem therapist_signup_is_offered_to_customers (answers : Answers.t)
    (db : Backend.t) (f : LoginForm.t) (id : positive) (today : string)
    (bookings_ok : bool) (st : Store.t) (a : App.t) :
  LoginForm.isSignup f = true ->
  Answers.signUp answers = AuthData (Some id) ->
  Answers.userInsert answers = None ->
  Backend.users db !! id = None ->
  let db' := (LoginForm.handleSubmit answers db f).1.1 in
  let active users :=
    Stats.activeTherapists (fetchReports today bookings_ok true st users) in
  let u := AuthUser.mk id (LoginForm.email f) in
  let page :=
    App.render (App.checkUser (Some u) (User.role <$> Backend.users db' !! id) a) in
  if LoginForm.isTherapist f then
    Therapist.mk id (LoginForm.name f)
      ∈ fetchAvailableTherapists true (Backend.users db')
    /\ active (Backend.users db') = active (Backend.users db) + 1
    /\ page = Some (true, [TherapistDashboardPage u])
  else
    fetchAvailableTherapists true (Backend.users db')
    = fetchAvailableTherapists true (Backend.users db)
    /\ active (Backend.users db') = active (Backend.users db)
    /\ page = Some (true, [BookingFlowPage u]).
Proof.
  intros Hsignup Hauth Hinsert Hnone db' active u page.
  set (row := User.mk (LoginForm.name f) (LoginForm.email f) (LoginForm.phone f)
                (if LoginForm.isTherapist f then Role.therapist else Role.customer)).
  assert (Backend.users db' = <[id := row]> (Backend.users db)) as Husers.
  { subst db' row. unfold LoginForm.handleSubmit, insert_row.
    rewrite Hsignup, Hauth, Hinsert, Hnone.
    destruct (LoginForm.isTherapist f); [|reflexivity].
    cbn [Backend.users Backend.therapist_profiles].
    destruct (Answers.profileInsert answers); [reflexivity|].
    destruct (Backend.therapist_profiles db !! id); reflexivity. }
  pose proof (therapists_insert (Backend.users db) id row Hnone) as Hlist.
  cbv zeta in Hlist.
  subst page active. cbv beta. rewrite Husers, lookup_insert_eq.
  unfold fetchAvailableTherapists, fetchReports, report, therapist_users.
  cbn [Stats.activeTherapists fmap option_fmap option_map].
  subst row. destruct (LoginForm.isTherapist f); cbn [User.role] in *.
  - destruct (decide (Role.therapist = Role.therapist)) as [_|]; [|contradiction].
    split; [|split; [|destruct a; reflexivity]].
    + rewrite Hlist. cbn [fmap list_fmap fst snd User.name]. apply list_elem_of_here.
    + rewrite !length_fmap, Hlist. cbn [length]. lia.
  - destruct (decide (Role.customer = Role.therapist)) as [|_]; [discriminate|].
    rewrite Hlist. split; [reflexivity|]. split; [reflexivity|].
    destruct a; reflexivity.
Qed.

Lemma therapist_signup_is_offered_to_customers_witness :
  let db' :=
    (LoginForm.handleSubmit
       (Answers.mk (AuthData (Some 8%positive)) None (Some "permission denied"%string)
          None)
       (Backend.mk ∅ ∅) SignupExample.robin).1.1 in
  Therapist.mk 8 "Robin" ∈ fetchAvailableTherapists true (Backend.users db')
  /\ Stats.activeTherapists
       (fetchReports "2025-03-01" true true ReportExample.store (Backend.users db'))
     = Stats.activeTherapists
         (fetchReports "2025-03-01" true true ReportExample.store ∅) + 1.
Proof.
  intros db'.
  pose proof (therapist_signup_is_offered_to_customers
                (Answers.mk (AuthData (Some 8%positive)) None
                   (Some "permission denied"%string) None)
                (Backend.mk ∅ ∅) SignupExample.robin 8 "2025-03-01" true
                ReportExample.store App.initial) as H.
  destruct H as (H1 & H2 & _); try reflexivity.
  split; [exact H1 | exact H2].
Defined.
